(** * XIAO ESP32S3 communication GUI: a shallow embedding

    The development follows [gui/esp32s3_gui.py] (the tkinter application),
    [gui/ble_scanner.py] and [gui/ble_connect_test.py].

    - Python [str] values are lists of Unicode code points.
    - Every method of [ESP32S3_GUI] is a computation in a state-and-exception
      monad over a [World]: the attributes of the object, the widgets, the
      queue of [root.after], the message boxes shown, the threads started,
      the storage, and the calls made into pyserial and bleak.
    - What the libraries answer (a port that fails to open, the services of
      a peripheral, a write that raises) is an argument of the method that
      makes the call.
    - Closures handed to [root.after], coroutines handed to the asyncio
      bridge and thread targets are first-order data ([Callback], [Coro],
      [Thread]) with an interpreter each.  A closure is kept with the
      values its variables had when it was queued.
    - A method runs as one step.  A worker blocked in [future.result] lets
      the loop of the bridge make the turns it is given; a coroutine runs
      to its end within one turn.
    - Left out: the layout of the widgets, scrolling ([see]), redraws
      ([update_idletasks]), sleeps, the rendering of the inspector window
      and the text of the About dialog after its first line. *)

From stdpp Require Import gmap list pretty.
From Stdlib Require Import NArith ZArith String Ascii Lia.
From Stdlib.Strings Require Import Byte.

Open Scope list_scope.

(* ===================================================================== *)
(** ** Python strings *)
(* ===================================================================== *)

Module Py.

Local Open Scope N_scope.

(** A [str] is a sequence of code points, a [bytes] a sequence of bytes. *)
Definition str := list N.
Definition bytes := list byte.

(** An ASCII literal of the source. *)
Definition lit (s : string) : str := map N_of_ascii (list_ascii_of_string s).
Global Arguments lit : simpl never.

(** [str.isspace] on one character: the code points CPython's
    [_PyUnicode_IsWhitespace] accepts. *)
Definition isspace (c : N) : bool :=
  ((9 <=? c) && (c <=? 13)) || ((28 <=? c) && (c <=? 32))
  || (c =? 133) || (c =? 160) || (c =? 5760)
  || ((8192 <=? c) && (c <=? 8202))
  || (c =? 8232) || (c =? 8233) || (c =? 8239) || (c =? 8287)
  || (c =? 12288).

Fixpoint lstrip (s : str) : str :=
  match s with
  | c :: s' => if isspace c then lstrip s' else s
  | [] => []
  end.

Definition rstrip (s : str) : str := rev (lstrip (rev s)).

(** [s.strip()] *)
Definition strip (s : str) : str := rstrip (lstrip s).

(** Truth value of a string: [if s:] *)
Definition truthy (s : str) : bool :=
  match s with [] => false | _ :: _ => true end.

Fixpoint startswith (p s : str) : bool :=
  match p, s with
  | [], _ => true
  | _ :: _, [] => false
  | a :: p', b :: s' => (a =? b) && startswith p' s'
  end.

(** [needle in hay] *)
Fixpoint contains (needle hay : str) : bool :=
  startswith needle hay ||
  match hay with
  | [] => false
  | _ :: hay' => contains needle hay'
  end.

(** [sep.join(parts)] *)
Fixpoint join (sep : str) (parts : list str) : str :=
  match parts with
  | [] => []
  | [p] => p
  | p :: ps => p ++ sep ++ join sep ps
  end.

(** [str(n)] for a non-negative integer. *)
Definition of_nat (n : nat) : str := lit (pretty n).

(** [c * n] for a one-character string [c]. *)
Definition times (c : string) (n : nat) : str := List.concat (replicate n (lit c)).

Definition eqb (a b : str) : bool := bool_decide (a = b).

(** Case mappings on the ASCII range; other code points are kept.  They
    instantiate the runtime's [str.upper] and [str.lower] in examples. *)
Definition ascii_upper_char (c : N) : N :=
  if (97 <=? c) && (c <=? 122) then c - 32 else c.
Definition ascii_lower_char (c : N) : N :=
  if (65 <=? c) && (c <=? 90) then c + 32 else c.
Definition ascii_upper (s : str) : str := map ascii_upper_char s.
Definition ascii_lower (s : str) : str := map ascii_lower_char s.

(** One byte per code point, for examples over ASCII data. *)
Definition latin1_decode (b : bytes) : str := map Byte.to_N b.
Definition latin1_encode (s : str) : bytes :=
  map (fun c => default x00 (Byte.of_N c)) s.

End Py.

Import Py.


(* ===================================================================== *)
(** ** Data of the program *)
(* ===================================================================== *)

(** Exceptions, by what [str(e)] prints. *)
Inductive exn :=
| LibError (msg : str)        (* raised inside pyserial, bleak or the OS *)
| TimeoutError                (* [future.result(timeout=...)] expired *)
| RuntimeError (msg : str)
| ValueError (msg : str)
| AttributeError (msg : str).

Definition str_of_exn (e : exn) : str :=
  match e with
  | TimeoutError => []
  | LibError m | RuntimeError m | ValueError m | AttributeError m => m
  end.

Inductive Res (A : Type) :=
| Ok (a : A)
| Raise (e : exn).
Arguments Ok {A} a.
Arguments Raise {A} e.

(** [int(s)] on ASCII decimal digits, without sign, for examples. *)
Definition digit (c : N) : option Z :=
  if ((48 <=? c) && (c <=? 57))%N then Some (Z.of_N (c - 48)) else None.

Fixpoint digits (acc : Z) (s : str) : option Z :=
  match s with
  | [] => Some acc
  | c :: s' =>
      match digit c with
      | Some d => digits (10 * acc + d) s'
      | None => None
      end
  end.

Definition int_ascii (s : str) : Res Z :=
  match strip s with
  | [] => Raise (ValueError (lit "invalid literal for int() with base 10"))
  | t =>
      match digits 0 t with
      | Some z => Ok z
      | None => Raise (ValueError (lit "invalid literal for int() with base 10"))
      end
  end.

(** What bleak reports about a peripheral. *)
Record Characteristic := {
  chr_uuid : str;
  chr_properties : list str;
  chr_description : option str;
}.

Record Service := {
  svc_uuid : str;
  svc_description : str;
  svc_characteristics : list Characteristic;
}.

Record Device := {
  dev_name : option str;      (* [device.name], possibly [None] *)
  dev_address : str;
}.

(** The dictionaries [_inspect_ble] builds; [is_target] is the presence of
    the key of that name. *)
Record CharInfo := {
  ci_uuid : str;
  ci_properties : list str;
  ci_description : str;
  ci_is_target : bool;
}.

Record ServiceInfo := {
  si_uuid : str;
  si_description : str;
  si_characteristics : list CharInfo;
  si_is_target : bool;
}.

Record InspectResult := {
  services : list ServiceInfo;
  target_service_found : bool;
  target_char_found : bool;
}.

(** Results of the coroutines submitted to the bridge. *)
Inductive Value :=
| VNone
| VDevices (ds : list Device)
| VInspect (r : InspectResult).

(** The coroutine objects handed to [AsyncioManager.run_async]. *)
Inductive Coro :=
| Co_scan_ble
| Co_inspect_ble (device : Device)
| Co_connect_ble (device : Device)
| Co_send_ble (message : str).

(** The closures handed to [root.after(0, ...)]. *)
Inductive Callback :=
| Cb_add_serial_message (message msg_type : str)
| Cb_add_ble_message (message msg_type : str)
| Cb_update_status (message : str)
| Cb_update_device_list (devices : list Device)
| Cb_show_device_info (device : Device) (services_info : InspectResult)
| Cb_showerror (title message : str)
| Cb_ble_connected (device : Device)
| Cb_ble_disconnected.

(** Targets of [threading.Thread(target=..., daemon=True)]. *)
Inductive Thread :=
| Th_run_loop
| Th_read_serial_messages
| Th_scan_ble_async
| Th_inspect_ble_async (device : Device)
| Th_connect_ble_async (device : Device)
| Th_disconnect_ble_async
| Th_send_ble_async (message : str).

Inductive DialogKind := showerror | showwarning | showinfo.

Record Dialog := {
  dlg_kind : DialogKind;
  dlg_title : str;
  dlg_message : str;
}.

(** Calls into pyserial. *)
Inductive SerialCall :=
| SerOpen (port : str) (baud : Z)
| SerClose (port : str)
| SerReadline (port : str)
| SerWrite (port : str) (data : bytes).

(** Calls into bleak, with the event loop that ran them. *)
Inductive LoopId :=
| BridgeLoop                   (* the loop of the [AsyncioManager] *)
| PrivateLoop (n : nat).       (* a loop made by [asyncio.new_event_loop()] *)

Inductive BleCall :=
| BleDiscover
| BleConnect (address : str)
| BleDisconnect (address : str)
| BleStartNotify (address uuid : str)
| BleRead (address uuid : str)
| BleWrite (address uuid : str) (data : bytes).

Record Serial := {
  ser_port : str;
  ser_baud : Z;
}.

Record BleakClient := {
  cl_address : str;
}.

(** The event loop of the bridge: [loop_ready] is the queue filled by
    [run_coroutine_threadsafe], each entry a future and its coroutine. *)
Record Loop := {
  loop_running : bool;
  loop_closed : bool;
  loop_ready : list (nat * Coro);
}.

Record AsyncioManager := {
  am_loop : option Loop;
  am_thread : option Thread;
  am_executor_open : bool;
}.

(** Attributes of the [ESP32S3_GUI] object.  [device_index_map] and
    [ble_devices] are [None] until the first scan result: the attribute
    does not exist before.  ([ble_thread] is set to [None] once and never
    used.) *)
Record App := {
  serial_connection : option Serial;
  ble_client : option BleakClient;
  is_connected_serial : bool;
  is_connected_ble : bool;
  message_count : nat;
  serial_thread : option Thread;
  stop_threads : bool;
  asyncio_manager : option AsyncioManager;
  device_index_map : option (gmap nat Device);
  ble_devices : option (list Device);
}.

(** The widgets the methods read or write.  [ble_messages] is [None] when
    the BLE tab was not built. *)
Record Tk := {
  notebook : list str;
  serial_port_var : str;
  serial_port_combo : list str;
  baud_var : str;
  serial_connect_btn : str;
  serial_messages : str;
  serial_command_var : str;
  device_listbox : list str;
  curselection : list nat;
  ble_connect_btn : str;
  ble_status_var : str;
  ble_messages : option str;
  ble_command_var : str;
  auto_scroll_var : bool;
  timestamp_var : bool;
  status_var : str;
  connection_status_var : str;
  toplevels : list (str * InspectResult);
  destroyed : bool;
}.

(** Everything a method can read or change. *)
Record World := {
  BLEAK_AVAILABLE : bool;
  app : App;
  tk : Tk;
  after_queue : list Callback;          (* [root.after] queue *)
  dialogs : list Dialog;                (* message boxes shown *)
  stdout : list str;                    (* [print] *)
  threads : list Thread;                (* threads started *)
  files : gmap str str;                 (* storage: path to content *)
  serial_calls : list SerialCall;
  ble_calls : list (LoopId * BleCall);
  futures : gmap nat (Res Value);       (* completed futures *)
  next_future : nat;
  waits : list (nat * Z);               (* [future.result(timeout=t)] *)
  private_loops : nat;                  (* loops made outside the bridge *)
  now_hms : str;                        (* clock, as "%H:%M:%S" *)
  now_full : str;                       (* clock, as "%Y-%m-%d %H:%M:%S" *)
}.


(* ===================================================================== *)
(** ** Field updates *)
(* ===================================================================== *)

(** [set_f v r] is [r] with field [f] replaced by [v]. *)

Definition set_loop_running (v : bool) (r : Loop) : Loop :=
  {| loop_running := v; loop_closed := loop_closed r;
     loop_ready := loop_ready r |}.

Definition set_loop_closed (v : bool) (r : Loop) : Loop :=
  {| loop_running := loop_running r; loop_closed := v;
     loop_ready := loop_ready r |}.

Definition set_loop_ready (v : list (nat * Coro)) (r : Loop) : Loop :=
  {| loop_running := loop_running r; loop_closed := loop_closed r;
     loop_ready := v |}.

Definition set_am_loop (v : option Loop) (r : AsyncioManager) : AsyncioManager :=
  {| am_loop := v; am_thread := am_thread r;
     am_executor_open := am_executor_open r |}.

Definition set_am_thread (v : option Thread) (r : AsyncioManager) : AsyncioManager :=
  {| am_loop := am_loop r; am_thread := v;
     am_executor_open := am_executor_open r |}.

Definition set_am_executor_open (v : bool) (r : AsyncioManager) : AsyncioManager :=
  {| am_loop := am_loop r; am_thread := am_thread r;
     am_executor_open := v |}.

Definition set_serial_connection (v : option Serial) (r : App) : App :=
  {| serial_connection := v; ble_client := ble_client r;
     is_connected_serial := is_connected_serial r;
     is_connected_ble := is_connected_ble r;
     message_count := message_count r; serial_thread := serial_thread r;
     stop_threads := stop_threads r; asyncio_manager := asyncio_manager r;
     device_index_map := device_index_map r;
     ble_devices := ble_devices r |}.

Definition set_ble_client (v : option BleakClient) (r : App) : App :=
  {| serial_connection := serial_connection r; ble_client := v;
     is_connected_serial := is_connected_serial r;
     is_connected_ble := is_connected_ble r;
     message_count := message_count r; serial_thread := serial_thread r;
     stop_threads := stop_threads r; asyncio_manager := asyncio_manager r;
     device_index_map := device_index_map r;
     ble_devices := ble_devices r |}.

Definition set_is_connected_serial (v : bool) (r : App) : App :=
  {| serial_connection := serial_connection r; ble_client := ble_client r;
     is_connected_serial := v; is_connected_ble := is_connected_ble r;
     message_count := message_count r; serial_thread := serial_thread r;
     stop_threads := stop_threads r; asyncio_manager := asyncio_manager r;
     device_index_map := device_index_map r;
     ble_devices := ble_devices r |}.

Definition set_is_connected_ble (v : bool) (r : App) : App :=
  {| serial_connection := serial_connection r; ble_client := ble_client r;
     is_connected_serial := is_connected_serial r; is_connected_ble := v;
     message_count := message_count r; serial_thread := serial_thread r;
     stop_threads := stop_threads r; asyncio_manager := asyncio_manager r;
     device_index_map := device_index_map r;
     ble_devices := ble_devices r |}.

Definition set_message_count (v : nat) (r : App) : App :=
  {| serial_connection := serial_connection r; ble_client := ble_client r;
     is_connected_serial := is_connected_serial r;
     is_connected_ble := is_connected_ble r; message_count := v;
     serial_thread := serial_thread r; stop_threads := stop_threads r;
     asyncio_manager := asyncio_manager r;
     device_index_map := device_index_map r;
     ble_devices := ble_devices r |}.

Definition set_serial_thread (v : option Thread) (r : App) : App :=
  {| serial_connection := serial_connection r; ble_client := ble_client r;
     is_connected_serial := is_connected_serial r;
     is_connected_ble := is_connected_ble r;
     message_count := message_count r; serial_thread := v;
     stop_threads := stop_threads r; asyncio_manager := asyncio_manager r;
     device_index_map := device_index_map r;
     ble_devices := ble_devices r |}.

Definition set_stop_threads (v : bool) (r : App) : App :=
  {| serial_connection := serial_connection r; ble_client := ble_client r;
     is_connected_serial := is_connected_serial r;
     is_connected_ble := is_connected_ble r;
     message_count := message_count r; serial_thread := serial_thread r;
     stop_threads := v; asyncio_manager := asyncio_manager r;
     device_index_map := device_index_map r;
     ble_devices := ble_devices r |}.

Definition set_asyncio_manager (v : option AsyncioManager) (r : App) : App :=
  {| serial_connection := serial_connection r; ble_client := ble_client r;
     is_connected_serial := is_connected_serial r;
     is_connected_ble := is_connected_ble r;
     message_count := message_count r; serial_thread := serial_thread r;
     stop_threads := stop_threads r; asyncio_manager := v;
     device_index_map := device_index_map r;
     ble_devices := ble_devices r |}.

Definition set_device_index_map (v : option (gmap nat Device)) (r : App) : App :=
  {| serial_connection := serial_connection r; ble_client := ble_client r;
     is_connected_serial := is_connected_serial r;
     is_connected_ble := is_connected_ble r;
     message_count := message_count r; serial_thread := serial_thread r;
     stop_threads := stop_threads r; asyncio_manager := asyncio_manager r;
     device_index_map := v; ble_devices := ble_devices r |}.

Definition set_ble_devices (v : option (list Device)) (r : App) : App :=
  {| serial_connection := serial_connection r; ble_client := ble_client r;
     is_connected_serial := is_connected_serial r;
     is_connected_ble := is_connected_ble r;
     message_count := message_count r; serial_thread := serial_thread r;
     stop_threads := stop_threads r; asyncio_manager := asyncio_manager r;
     device_index_map := device_index_map r; ble_devices := v |}.

Definition set_notebook (v : list str) (r : Tk) : Tk :=
  {| notebook := v; serial_port_var := serial_port_var r;
     serial_port_combo := serial_port_combo r; baud_var := baud_var r;
     serial_connect_btn := serial_connect_btn r;
     serial_messages := serial_messages r;
     serial_command_var := serial_command_var r;
     device_listbox := device_listbox r; curselection := curselection r;
     ble_connect_btn := ble_connect_btn r;
     ble_status_var := ble_status_var r; ble_messages := ble_messages r;
     ble_command_var := ble_command_var r;
     auto_scroll_var := auto_scroll_var r; timestamp_var := timestamp_var r;
     status_var := status_var r;
     connection_status_var := connection_status_var r;
     toplevels := toplevels r; destroyed := destroyed r |}.

Definition set_serial_port_var (v : str) (r : Tk) : Tk :=
  {| notebook := notebook r; serial_port_var := v;
     serial_port_combo := serial_port_combo r; baud_var := baud_var r;
     serial_connect_btn := serial_connect_btn r;
     serial_messages := serial_messages r;
     serial_command_var := serial_command_var r;
     device_listbox := device_listbox r; curselection := curselection r;
     ble_connect_btn := ble_connect_btn r;
     ble_status_var := ble_status_var r; ble_messages := ble_messages r;
     ble_command_var := ble_command_var r;
     auto_scroll_var := auto_scroll_var r; timestamp_var := timestamp_var r;
     status_var := status_var r;
     connection_status_var := connection_status_var r;
     toplevels := toplevels r; destroyed := destroyed r |}.

Definition set_serial_port_combo (v : list str) (r : Tk) : Tk :=
  {| notebook := notebook r; serial_port_var := serial_port_var r;
     serial_port_combo := v; baud_var := baud_var r;
     serial_connect_btn := serial_connect_btn r;
     serial_messages := serial_messages r;
     serial_command_var := serial_command_var r;
     device_listbox := device_listbox r; curselection := curselection r;
     ble_connect_btn := ble_connect_btn r;
     ble_status_var := ble_status_var r; ble_messages := ble_messages r;
     ble_command_var := ble_command_var r;
     auto_scroll_var := auto_scroll_var r; timestamp_var := timestamp_var r;
     status_var := status_var r;
     connection_status_var := connection_status_var r;
     toplevels := toplevels r; destroyed := destroyed r |}.

Definition set_baud_var (v : str) (r : Tk) : Tk :=
  {| notebook := notebook r; serial_port_var := serial_port_var r;
     serial_port_combo := serial_port_combo r; baud_var := v;
     serial_connect_btn := serial_connect_btn r;
     serial_messages := serial_messages r;
     serial_command_var := serial_command_var r;
     device_listbox := device_listbox r; curselection := curselection r;
     ble_connect_btn := ble_connect_btn r;
     ble_status_var := ble_status_var r; ble_messages := ble_messages r;
     ble_command_var := ble_command_var r;
     auto_scroll_var := auto_scroll_var r; timestamp_var := timestamp_var r;
     status_var := status_var r;
     connection_status_var := connection_status_var r;
     toplevels := toplevels r; destroyed := destroyed r |}.

Definition set_serial_connect_btn (v : str) (r : Tk) : Tk :=
  {| notebook := notebook r; serial_port_var := serial_port_var r;
     serial_port_combo := serial_port_combo r; baud_var := baud_var r;
     serial_connect_btn := v; serial_messages := serial_messages r;
     serial_command_var := serial_command_var r;
     device_listbox := device_listbox r; curselection := curselection r;
     ble_connect_btn := ble_connect_btn r;
     ble_status_var := ble_status_var r; ble_messages := ble_messages r;
     ble_command_var := ble_command_var r;
     auto_scroll_var := auto_scroll_var r; timestamp_var := timestamp_var r;
     status_var := status_var r;
     connection_status_var := connection_status_var r;
     toplevels := toplevels r; destroyed := destroyed r |}.

Definition set_serial_messages (v : str) (r : Tk) : Tk :=
  {| notebook := notebook r; serial_port_var := serial_port_var r;
     serial_port_combo := serial_port_combo r; baud_var := baud_var r;
     serial_connect_btn := serial_connect_btn r; serial_messages := v;
     serial_command_var := serial_command_var r;
     device_listbox := device_listbox r; curselection := curselection r;
     ble_connect_btn := ble_connect_btn r;
     ble_status_var := ble_status_var r; ble_messages := ble_messages r;
     ble_command_var := ble_command_var r;
     auto_scroll_var := auto_scroll_var r; timestamp_var := timestamp_var r;
     status_var := status_var r;
     connection_status_var := connection_status_var r;
     toplevels := toplevels r; destroyed := destroyed r |}.

Definition set_serial_command_var (v : str) (r : Tk) : Tk :=
  {| notebook := notebook r; serial_port_var := serial_port_var r;
     serial_port_combo := serial_port_combo r; baud_var := baud_var r;
     serial_connect_btn := serial_connect_btn r;
     serial_messages := serial_messages r; serial_command_var := v;
     device_listbox := device_listbox r; curselection := curselection r;
     ble_connect_btn := ble_connect_btn r;
     ble_status_var := ble_status_var r; ble_messages := ble_messages r;
     ble_command_var := ble_command_var r;
     auto_scroll_var := auto_scroll_var r; timestamp_var := timestamp_var r;
     status_var := status_var r;
     connection_status_var := connection_status_var r;
     toplevels := toplevels r; destroyed := destroyed r |}.

Definition set_device_listbox (v : list str) (r : Tk) : Tk :=
  {| notebook := notebook r; serial_port_var := serial_port_var r;
     serial_port_combo := serial_port_combo r; baud_var := baud_var r;
     serial_connect_btn := serial_connect_btn r;
     serial_messages := serial_messages r;
     serial_command_var := serial_command_var r; device_listbox := v;
     curselection := curselection r; ble_connect_btn := ble_connect_btn r;
     ble_status_var := ble_status_var r; ble_messages := ble_messages r;
     ble_command_var := ble_command_var r;
     auto_scroll_var := auto_scroll_var r; timestamp_var := timestamp_var r;
     status_var := status_var r;
     connection_status_var := connection_status_var r;
     toplevels := toplevels r; destroyed := destroyed r |}.

Definition set_curselection (v : list nat) (r : Tk) : Tk :=
  {| notebook := notebook r; serial_port_var := serial_port_var r;
     serial_port_combo := serial_port_combo r; baud_var := baud_var r;
     serial_connect_btn := serial_connect_btn r;
     serial_messages := serial_messages r;
     serial_command_var := serial_command_var r;
     device_listbox := device_listbox r; curselection := v;
     ble_connect_btn := ble_connect_btn r;
     ble_status_var := ble_status_var r; ble_messages := ble_messages r;
     ble_command_var := ble_command_var r;
     auto_scroll_var := auto_scroll_var r; timestamp_var := timestamp_var r;
     status_var := status_var r;
     connection_status_var := connection_status_var r;
     toplevels := toplevels r; destroyed := destroyed r |}.

Definition set_ble_connect_btn (v : str) (r : Tk) : Tk :=
  {| notebook := notebook r; serial_port_var := serial_port_var r;
     serial_port_combo := serial_port_combo r; baud_var := baud_var r;
     serial_connect_btn := serial_connect_btn r;
     serial_messages := serial_messages r;
     serial_command_var := serial_command_var r;
     device_listbox := device_listbox r; curselection := curselection r;
     ble_connect_btn := v; ble_status_var := ble_status_var r;
     ble_messages := ble_messages r; ble_command_var := ble_command_var r;
     auto_scroll_var := auto_scroll_var r; timestamp_var := timestamp_var r;
     status_var := status_var r;
     connection_status_var := connection_status_var r;
     toplevels := toplevels r; destroyed := destroyed r |}.

Definition set_ble_status_var (v : str) (r : Tk) : Tk :=
  {| notebook := notebook r; serial_port_var := serial_port_var r;
     serial_port_combo := serial_port_combo r; baud_var := baud_var r;
     serial_connect_btn := serial_connect_btn r;
     serial_messages := serial_messages r;
     serial_command_var := serial_command_var r;
     device_listbox := device_listbox r; curselection := curselection r;
     ble_connect_btn := ble_connect_btn r; ble_status_var := v;
     ble_messages := ble_messages r; ble_command_var := ble_command_var r;
     auto_scroll_var := auto_scroll_var r; timestamp_var := timestamp_var r;
     status_var := status_var r;
     connection_status_var := connection_status_var r;
     toplevels := toplevels r; destroyed := destroyed r |}.

Definition set_ble_messages (v : option str) (r : Tk) : Tk :=
  {| notebook := notebook r; serial_port_var := serial_port_var r;
     serial_port_combo := serial_port_combo r; baud_var := baud_var r;
     serial_connect_btn := serial_connect_btn r;
     serial_messages := serial_messages r;
     serial_command_var := serial_command_var r;
     device_listbox := device_listbox r; curselection := curselection r;
     ble_connect_btn := ble_connect_btn r;
     ble_status_var := ble_status_var r; ble_messages := v;
     ble_command_var := ble_command_var r;
     auto_scroll_var := auto_scroll_var r; timestamp_var := timestamp_var r;
     status_var := status_var r;
     connection_status_var := connection_status_var r;
     toplevels := toplevels r; destroyed := destroyed r |}.

Definition set_ble_command_var (v : str) (r : Tk) : Tk :=
  {| notebook := notebook r; serial_port_var := serial_port_var r;
     serial_port_combo := serial_port_combo r; baud_var := baud_var r;
     serial_connect_btn := serial_connect_btn r;
     serial_messages := serial_messages r;
     serial_command_var := serial_command_var r;
     device_listbox := device_listbox r; curselection := curselection r;
     ble_connect_btn := ble_connect_btn r;
     ble_status_var := ble_status_var r; ble_messages := ble_messages r;
     ble_command_var := v; auto_scroll_var := auto_scroll_var r;
     timestamp_var := timestamp_var r; status_var := status_var r;
     connection_status_var := connection_status_var r;
     toplevels := toplevels r; destroyed := destroyed r |}.

Definition set_auto_scroll_var (v : bool) (r : Tk) : Tk :=
  {| notebook := notebook r; serial_port_var := serial_port_var r;
     serial_port_combo := serial_port_combo r; baud_var := baud_var r;
     serial_connect_btn := serial_connect_btn r;
     serial_messages := serial_messages r;
     serial_command_var := serial_command_var r;
     device_listbox := device_listbox r; curselection := curselection r;
     ble_connect_btn := ble_connect_btn r;
     ble_status_var := ble_status_var r; ble_messages := ble_messages r;
     ble_command_var := ble_command_var r; auto_scroll_var := v;
     timestamp_var := timestamp_var r; status_var := status_var r;
     connection_status_var := connection_status_var r;
     toplevels := toplevels r; destroyed := destroyed r |}.

Definition set_timestamp_var (v : bool) (r : Tk) : Tk :=
  {| notebook := notebook r; serial_port_var := serial_port_var r;
     serial_port_combo := serial_port_combo r; baud_var := baud_var r;
     serial_connect_btn := serial_connect_btn r;
     serial_messages := serial_messages r;
     serial_command_var := serial_command_var r;
     device_listbox := device_listbox r; curselection := curselection r;
     ble_connect_btn := ble_connect_btn r;
     ble_status_var := ble_status_var r; ble_messages := ble_messages r;
     ble_command_var := ble_command_var r;
     auto_scroll_var := auto_scroll_var r; timestamp_var := v;
     status_var := status_var r;
     connection_status_var := connection_status_var r;
     toplevels := toplevels r; destroyed := destroyed r |}.

Definition set_status_var (v : str) (r : Tk) : Tk :=
  {| notebook := notebook r; serial_port_var := serial_port_var r;
     serial_port_combo := serial_port_combo r; baud_var := baud_var r;
     serial_connect_btn := serial_connect_btn r;
     serial_messages := serial_messages r;
     serial_command_var := serial_command_var r;
     device_listbox := device_listbox r; curselection := curselection r;
     ble_connect_btn := ble_connect_btn r;
     ble_status_var := ble_status_var r; ble_messages := ble_messages r;
     ble_command_var := ble_command_var r;
     auto_scroll_var := auto_scroll_var r; timestamp_var := timestamp_var r;
     status_var := v; connection_status_var := connection_status_var r;
     toplevels := toplevels r; destroyed := destroyed r |}.

Definition set_connection_status_var (v : str) (r : Tk) : Tk :=
  {| notebook := notebook r; serial_port_var := serial_port_var r;
     serial_port_combo := serial_port_combo r; baud_var := baud_var r;
     serial_connect_btn := serial_connect_btn r;
     serial_messages := serial_messages r;
     serial_command_var := serial_command_var r;
     device_listbox := device_listbox r; curselection := curselection r;
     ble_connect_btn := ble_connect_btn r;
     ble_status_var := ble_status_var r; ble_messages := ble_messages r;
     ble_command_var := ble_command_var r;
     auto_scroll_var := auto_scroll_var r; timestamp_var := timestamp_var r;
     status_var := status_var r; connection_status_var := v;
     toplevels := toplevels r; destroyed := destroyed r |}.

Definition set_toplevels (v : list (str * InspectResult)) (r : Tk) : Tk :=
  {| notebook := notebook r; serial_port_var := serial_port_var r;
     serial_port_combo := serial_port_combo r; baud_var := baud_var r;
     serial_connect_btn := serial_connect_btn r;
     serial_messages := serial_messages r;
     serial_command_var := serial_command_var r;
     device_listbox := device_listbox r; curselection := curselection r;
     ble_connect_btn := ble_connect_btn r;
     ble_status_var := ble_status_var r; ble_messages := ble_messages r;
     ble_command_var := ble_command_var r;
     auto_scroll_var := auto_scroll_var r; timestamp_var := timestamp_var r;
     status_var := status_var r;
     connection_status_var := connection_status_var r; toplevels := v;
     destroyed := destroyed r |}.

Definition set_destroyed (v : bool) (r : Tk) : Tk :=
  {| notebook := notebook r; serial_port_var := serial_port_var r;
     serial_port_combo := serial_port_combo r; baud_var := baud_var r;
     serial_connect_btn := serial_connect_btn r;
     serial_messages := serial_messages r;
     serial_command_var := serial_command_var r;
     device_listbox := device_listbox r; curselection := curselection r;
     ble_connect_btn := ble_connect_btn r;
     ble_status_var := ble_status_var r; ble_messages := ble_messages r;
     ble_command_var := ble_command_var r;
     auto_scroll_var := auto_scroll_var r; timestamp_var := timestamp_var r;
     status_var := status_var r;
     connection_status_var := connection_status_var r;
     toplevels := toplevels r; destroyed := v |}.

Definition set_app (v : App) (r : World) : World :=
  {| BLEAK_AVAILABLE := BLEAK_AVAILABLE r; app := v; tk := tk r;
     after_queue := after_queue r; dialogs := dialogs r; stdout := stdout r;
     threads := threads r; files := files r; serial_calls := serial_calls r;
     ble_calls := ble_calls r; futures := futures r;
     next_future := next_future r; waits := waits r;
     private_loops := private_loops r; now_hms := now_hms r;
     now_full := now_full r |}.

Definition set_tk (v : Tk) (r : World) : World :=
  {| BLEAK_AVAILABLE := BLEAK_AVAILABLE r; app := app r; tk := v;
     after_queue := after_queue r; dialogs := dialogs r; stdout := stdout r;
     threads := threads r; files := files r; serial_calls := serial_calls r;
     ble_calls := ble_calls r; futures := futures r;
     next_future := next_future r; waits := waits r;
     private_loops := private_loops r; now_hms := now_hms r;
     now_full := now_full r |}.

Definition set_after_queue (v : list Callback) (r : World) : World :=
  {| BLEAK_AVAILABLE := BLEAK_AVAILABLE r; app := app r; tk := tk r;
     after_queue := v; dialogs := dialogs r; stdout := stdout r;
     threads := threads r; files := files r; serial_calls := serial_calls r;
     ble_calls := ble_calls r; futures := futures r;
     next_future := next_future r; waits := waits r;
     private_loops := private_loops r; now_hms := now_hms r;
     now_full := now_full r |}.

Definition set_dialogs (v : list Dialog) (r : World) : World :=
  {| BLEAK_AVAILABLE := BLEAK_AVAILABLE r; app := app r; tk := tk r;
     after_queue := after_queue r; dialogs := v; stdout := stdout r;
     threads := threads r; files := files r; serial_calls := serial_calls r;
     ble_calls := ble_calls r; futures := futures r;
     next_future := next_future r; waits := waits r;
     private_loops := private_loops r; now_hms := now_hms r;
     now_full := now_full r |}.

Definition set_stdout (v : list str) (r : World) : World :=
  {| BLEAK_AVAILABLE := BLEAK_AVAILABLE r; app := app r; tk := tk r;
     after_queue := after_queue r; dialogs := dialogs r; stdout := v;
     threads := threads r; files := files r; serial_calls := serial_calls r;
     ble_calls := ble_calls r; futures := futures r;
     next_future := next_future r; waits := waits r;
     private_loops := private_loops r; now_hms := now_hms r;
     now_full := now_full r |}.

Definition set_threads (v : list Thread) (r : World) : World :=
  {| BLEAK_AVAILABLE := BLEAK_AVAILABLE r; app := app r; tk := tk r;
     after_queue := after_queue r; dialogs := dialogs r; stdout := stdout r;
     threads := v; files := files r; serial_calls := serial_calls r;
     ble_calls := ble_calls r; futures := futures r;
     next_future := next_future r; waits := waits r;
     private_loops := private_loops r; now_hms := now_hms r;
     now_full := now_full r |}.

Definition set_files (v : gmap str str) (r : World) : World :=
  {| BLEAK_AVAILABLE := BLEAK_AVAILABLE r; app := app r; tk := tk r;
     after_queue := after_queue r; dialogs := dialogs r; stdout := stdout r;
     threads := threads r; files := v; serial_calls := serial_calls r;
     ble_calls := ble_calls r; futures := futures r;
     next_future := next_future r; waits := waits r;
     private_loops := private_loops r; now_hms := now_hms r;
     now_full := now_full r |}.

Definition set_serial_calls (v : list SerialCall) (r : World) : World :=
  {| BLEAK_AVAILABLE := BLEAK_AVAILABLE r; app := app r; tk := tk r;
     after_queue := after_queue r; dialogs := dialogs r; stdout := stdout r;
     threads := threads r; files := files r; serial_calls := v;
     ble_calls := ble_calls r; futures := futures r;
     next_future := next_future r; waits := waits r;
     private_loops := private_loops r; now_hms := now_hms r;
     now_full := now_full r |}.

Definition set_ble_calls (v : list (LoopId * BleCall)) (r : World) : World :=
  {| BLEAK_AVAILABLE := BLEAK_AVAILABLE r; app := app r; tk := tk r;
     after_queue := after_queue r; dialogs := dialogs r; stdout := stdout r;
     threads := threads r; files := files r; serial_calls := serial_calls r;
     ble_calls := v; futures := futures r; next_future := next_future r;
     waits := waits r; private_loops := private_loops r;
     now_hms := now_hms r; now_full := now_full r |}.

Definition set_futures (v : gmap nat (Res Value)) (r : World) : World :=
  {| BLEAK_AVAILABLE := BLEAK_AVAILABLE r; app := app r; tk := tk r;
     after_queue := after_queue r; dialogs := dialogs r; stdout := stdout r;
     threads := threads r; files := files r; serial_calls := serial_calls r;
     ble_calls := ble_calls r; futures := v; next_future := next_future r;
     waits := waits r; private_loops := private_loops r;
     now_hms := now_hms r; now_full := now_full r |}.

Definition set_next_future (v : nat) (r : World) : World :=
  {| BLEAK_AVAILABLE := BLEAK_AVAILABLE r; app := app r; tk := tk r;
     after_queue := after_queue r; dialogs := dialogs r; stdout := stdout r;
     threads := threads r; files := files r; serial_calls := serial_calls r;
     ble_calls := ble_calls r; futures := futures r; next_future := v;
     waits := waits r; private_loops := private_loops r;
     now_hms := now_hms r; now_full := now_full r |}.

Definition set_waits (v : list (nat * Z)) (r : World) : World :=
  {| BLEAK_AVAILABLE := BLEAK_AVAILABLE r; app := app r; tk := tk r;
     after_queue := after_queue r; dialogs := dialogs r; stdout := stdout r;
     threads := threads r; files := files r; serial_calls := serial_calls r;
     ble_calls := ble_calls r; futures := futures r;
     next_future := next_future r; waits := v;
     private_loops := private_loops r; now_hms := now_hms r;
     now_full := now_full r |}.

Definition set_private_loops (v : nat) (r : World) : World :=
  {| BLEAK_AVAILABLE := BLEAK_AVAILABLE r; app := app r; tk := tk r;
     after_queue := after_queue r; dialogs := dialogs r; stdout := stdout r;
     threads := threads r; files := files r; serial_calls := serial_calls r;
     ble_calls := ble_calls r; futures := futures r;
     next_future := next_future r; waits := waits r; private_loops := v;
     now_hms := now_hms r; now_full := now_full r |}.

(* ===================================================================== *)
(** ** The monad of the methods *)
(* ===================================================================== *)

(** A method reads and changes the [World] and returns or raises. *)
Definition M (A : Type) : Type := World -> Res A * World.

Definition ret {A} (a : A) : M A := fun w => (Ok a, w).

Definition bind {A B} (m : M A) (k : A -> M B) : M B :=
  fun w =>
    match m w with
    | (Ok a, w') => k a w'
    | (Raise e, w') => (Raise e, w')
    end.

Definition raise {A} (e : exn) : M A := fun w => (Raise e, w).

(** [try: m except Exception as e: h e] *)
Definition try_except {A} (m : M A) (h : exn -> M A) : M A :=
  fun w =>
    match m w with
    | (Ok a, w') => (Ok a, w')
    | (Raise e, w') => h e w'
    end.

(** [try: m finally: f] *)
Definition try_finally {A} (m : M A) (f : M unit) : M A :=
  fun w =>
    match m w with
    | (r, w') =>
        match f w' with
        | (Ok _, w'') => (r, w'')
        | (Raise e, w'') => (Raise e, w'')
        end
    end.

Definition gets {A} (f : World -> A) : M A := fun w => (Ok (f w), w).
Definition modify (f : World -> World) : M unit := fun w => (Ok tt, f w).
Definition lift {A} (r : Res A) : M A := fun w => (r, w).

(** The world a method leaves, and what it returned. *)
Definition exec {A} (m : M A) (w : World) : World := snd (m w).
Definition outcome {A} (m : M A) (w : World) : Res A := fst (m w).

Declare Scope m_scope.
Delimit Scope m_scope with M.
Notation "'let*' x ':=' c1 'in' c2" := (bind c1 (fun x => c2))
  (at level 10, x pattern, c1 at level 100, c2 at level 200) : m_scope.
Notation "c1 >> c2" := (bind c1 (fun _ => c2))
  (at level 100, c2 at level 200, right associativity) : m_scope.
Open Scope m_scope.
Bind Scope m_scope with M.

Definition when (b : bool) (m : M unit) : M unit := if b then m else ret tt.

(** *** Primitive effects *)

Definition modify_app (f : App -> App) : M unit :=
  modify (fun w => set_app (f (app w)) w).

Definition modify_tk (f : Tk -> Tk) : M unit :=
  modify (fun w => set_tk (f (tk w)) w).

(** [self.root.after(0, cb)]: the one Tk call the worker threads make. *)
Definition root_after (cb : Callback) : M unit :=
  modify (fun w => set_after_queue (after_queue w ++ [cb]) w).

Definition messagebox (k : DialogKind) (title message : str) : M unit :=
  modify (fun w =>
    set_dialogs (dialogs w ++
      [{| dlg_kind := k; dlg_title := title; dlg_message := message |}]) w).

Definition print (s : str) : M unit :=
  modify (fun w => set_stdout (stdout w ++ [s]) w).

(** [threading.Thread(target=t, daemon=True).start()] *)
Definition start_thread (t : Thread) : M unit :=
  modify (fun w => set_threads (threads w ++ [t]) w).

(** A call into pyserial with the answer [r] of the library. *)
Definition serial_call {A} (c : SerialCall) (r : Res A) : M A :=
  modify (fun w => set_serial_calls (serial_calls w ++ [c]) w) >> lift r.

(** A call into bleak, awaited on loop [lp], with the answer [r]. *)
Definition ble_call {A} (lp : LoopId) (c : BleCall) (r : Res A) : M A :=
  modify (fun w => set_ble_calls (ble_calls w ++ [(lp, c)]) w) >> lift r.

Definition nl : str := [10%N].

(* ===================================================================== *)
(** ** The application *)
(* ===================================================================== *)

Section GUI.

(** What the Python runtime provides and this development leaves open:
    the Unicode case mappings, the UTF-8 codec and [int()]. *)
Variable upper lower : str -> str.
Variable decode_utf8_ignore : bytes -> str.
Variable encode_utf8 : str -> bytes.
Variable int_of_str : str -> Res Z.

(** BLE UUIDs, as in [__init__]. *)
Definition SERVICE_UUID : str := lit "12345678-1234-1234-1234-123456789abc".
Definition CHARACTERISTIC_UUID : str :=
  lit "87654321-4321-4321-4321-cba987654321".

(** [f"{device.name}"] *)
Definition fmt_name (device : Device) : str :=
  default (lit "None") (dev_name device).

(** *** AsyncioManager *)

(** [__init__] with [_start_event_loop]: one daemon thread is started; it
    makes the loop and runs it forever; the constructor returns once the
    loop exists. *)
Definition AsyncioManager_init : M AsyncioManager :=
  start_thread Th_run_loop >>
  ret {| am_loop := Some {| loop_running := true; loop_closed := false;
                            loop_ready := [] |};
         am_thread := Some Th_run_loop;
         am_executor_open := true |}.

(** [self.asyncio_manager.run_async(coro)]: the coroutine joins the
    queue of the loop and its future is returned. *)
Definition run_async (coro : Coro) : M nat :=
  let* mgr := gets (fun w => asyncio_manager (app w)) in
  match mgr with
  | None => raise (AttributeError (lit "run_async"))
  | Some m =>
      match am_loop m with
      | Some l =>
          if negb (loop_closed l) then
            let* fut := gets next_future in
            modify (set_next_future (S fut)) >>
            modify_app (set_asyncio_manager
              (Some (set_am_loop
                (Some (set_loop_ready (loop_ready l ++ [(fut, coro)]) l)) m))) >>
            ret fut
          else raise (RuntimeError (lit "Event loop is not running"))
      | None => raise (RuntimeError (lit "Event loop is not running"))
      end
  end.

(** [shutdown] *)
Definition shutdown : M unit :=
  let* mgr := gets (fun w => asyncio_manager (app w)) in
  match mgr with
  | None => raise (AttributeError (lit "shutdown"))
  | Some m =>
      match am_loop m with
      | Some l =>
          when (negb (loop_closed l))
            (modify_app (set_asyncio_manager
               (Some (set_am_executor_open false
                 (set_am_loop (Some (set_loop_running false l)) m)))))
      | None => ret tt
      end
  end.

(** *** Status bar and message displays *)

(** [update_status]: the text of the status bar is set. *)
Definition update_status (message : str) : M unit :=
  modify_tk (set_status_var message).

(** [update_connection_status] *)
Definition update_connection_status : M unit :=
  let* a := gets app in
  let status_parts :=
    (if is_connected_serial a then [lit "Serial"] else []) ++
    (if is_connected_ble a then [lit "BLE"] else []) in
  if bool_decide (status_parts = []) then
    modify_tk (set_connection_status_var (lit "Disconnected"))
  else
    modify_tk (set_connection_status_var
                 (lit "Connected: " ++ join (lit ", ") status_parts)).

(** The three prefixes of [add_serial_message] and [add_ble_message], as
    the code points of the source file. *)
Definition msg_prefix (msg_type : str) : str :=
  if eqb msg_type (lit "sent") then [8218; 220; 237; 32]%N
  else if eqb msg_type (lit "received") then [8218; 220; 234; 32]%N
  else [8218; 243; 232; 32]%N.

(** The line inserted at the end of a message display. *)
Definition full_message (timestamp message msg_type : str) : str :=
  if truthy timestamp
  then timestamp ++ lit " " ++ msg_prefix msg_type ++ message ++ nl
  else msg_prefix msg_type ++ message ++ nl.

(** [add_serial_message] *)
Definition add_serial_message (message msg_type : str) : M unit :=
  let* show := gets (fun w => timestamp_var (tk w)) in
  let* now := gets now_hms in
  let timestamp := if show then now else [] in
  modify_tk (fun t =>
    set_serial_messages
      (serial_messages t ++ full_message timestamp message msg_type) t) >>
  modify_app (fun a => set_message_count (S (message_count a)) a).

(** [add_ble_message]; without the BLE tab there is no display to
    write to. *)
Definition add_ble_message (message msg_type : str) : M unit :=
  let* show := gets (fun w => timestamp_var (tk w)) in
  let* now := gets now_hms in
  let timestamp := if show then now else [] in
  let* log := gets (fun w => ble_messages (tk w)) in
  match log with
  | None => raise (AttributeError (lit "ble_messages"))
  | Some text =>
      modify_tk (set_ble_messages
        (Some (text ++ full_message timestamp message msg_type))) >>
      modify_app (fun a => set_message_count (S (message_count a)) a)
  end.

(** [clear_all_messages] *)
Definition clear_all_messages : M unit :=
  modify_tk (set_serial_messages []) >>
  modify_tk (fun t =>
    match ble_messages t with
    | Some _ => set_ble_messages (Some []) t
    | None => t
    end) >>
  modify_app (set_message_count 0) >>
  update_status (lit "All messages cleared").

(** *** USB serial *)

(** [ports] is what [serial.tools.list_ports.comports()] lists. *)
Definition refresh_serial_ports (ports : list str) : M unit :=
  modify_tk (set_serial_port_combo ports) >>
  let* cur := gets (fun w => serial_port_var (tk w)) in
  match ports with
  | p0 :: _ =>
      when (negb (bool_decide (cur ∈ ports)))
           (modify_tk (set_serial_port_var p0))
  | [] => ret tt
  end >>
  update_status (lit "Found " ++ of_nat (List.length ports) ++ lit " serial port(s)").

(** [opened] is the answer of [serial.Serial(port, baud, timeout=1)]. *)
Definition connect_serial (opened : Res unit) : M unit :=
  let* port := gets (fun w => serial_port_var (tk w)) in
  try_except
    (let* s := gets (fun w => baud_var (tk w)) in
     let* baud := lift (int_of_str s) in
     serial_call (SerOpen port baud) opened >>
     modify_app (set_serial_connection
                   (Some {| ser_port := port; ser_baud := baud |})) >>
     modify_app (set_is_connected_serial true) >>
     modify_app (set_stop_threads false) >>
     modify_app (set_serial_thread (Some Th_read_serial_messages)) >>
     start_thread Th_read_serial_messages >>
     modify_tk (set_serial_connect_btn (lit "Disconnect")) >>
     update_status (lit "Connected to " ++ port ++ lit " at " ++
                    lit (pretty baud) ++ lit " baud") >>
     add_serial_message (lit "[GUI] Connected to " ++ port ++ lit " at " ++
                         lit (pretty baud) ++ lit " baud") (lit "system") >>
     update_connection_status)
    (fun e =>
       messagebox showerror (lit "Connection Error")
         (lit "Failed to connect to " ++ port ++ lit ":" ++ nl ++ str_of_exn e) >>
       update_status (lit "Connection failed")).

(** [disconnect_serial] *)
Definition disconnect_serial : M unit :=
  modify_app (set_stop_threads true) >>
  let* conn := gets (fun w => serial_connection (app w)) in
  match conn with
  | Some s =>
      serial_call (SerClose (ser_port s)) (Ok tt) >>
      modify_app (set_serial_connection None)
  | None => ret tt
  end >>
  modify_app (set_is_connected_serial false) >>
  modify_tk (set_serial_connect_btn (lit "Connect")) >>
  update_status (lit "Disconnected from serial") >>
  add_serial_message (lit "[GUI] Disconnected from serial") (lit "system") >>
  update_connection_status.

(** [toggle_serial_connection] *)
Definition toggle_serial_connection (opened : Res unit) : M unit :=
  let* connected := gets (fun w => is_connected_serial (app w)) in
  if negb connected then connect_serial opened else disconnect_serial.

(** One turn of the reader loop finds nothing waiting, reads a line, or
    meets an error of the port. *)
Inductive SerialPoll :=
| PollIdle
| PollLine (data : bytes)
| PollError (e : exn).

(** The body of the [while] of [read_serial_messages], once. *)
Definition read_serial_turn (p : SerialPoll) : M unit :=
  let* conn := gets (fun w => serial_connection (app w)) in
  match conn, p with
  | None, _ | Some _, PollIdle => ret tt
  | Some s, PollError e => serial_call (SerReadline (ser_port s)) (Raise e)
  | Some s, PollLine data =>
      let* line := serial_call (SerReadline (ser_port s)) (Ok data) in
      let message := strip (decode_utf8_ignore line) in
      when (truthy message)
           (root_after (Cb_add_serial_message message (lit "received")))
  end.

(** The reader thread over the turns [polls]; it ends when the flags say
    so, at the first error, or when the turns considered are over. *)
Fixpoint read_serial_messages (polls : list SerialPoll) : M unit :=
  match polls with
  | [] => ret tt
  | p :: ps =>
      let* a := gets app in
      if negb (stop_threads a) && is_connected_serial a then
        let* again :=
          try_except (read_serial_turn p >> ret true)
            (fun e =>
               root_after (Cb_update_status
                             (lit "Serial read error: " ++ str_of_exn e)) >>
               ret false) in
        if again : bool then read_serial_messages ps else ret tt
      else ret tt
  end.

(** [written] is the answer of [serial_connection.write]. *)
Definition send_serial_command_direct (command : str) (written : Res unit)
  : M unit :=
  let* connected := gets (fun w => is_connected_serial (app w)) in
  if negb connected then
    messagebox showwarning (lit "Not Connected")
               (lit "Please connect to serial port first")
  else
    try_except
      (let* conn := gets (fun w => serial_connection (app w)) in
       match conn with
       | None => raise (AttributeError (lit "write"))
       | Some s =>
           serial_call (SerWrite (ser_port s) (encode_utf8 (command ++ nl)))
                       written
       end >>
       add_serial_message (lit "[GUI] Sent: " ++ command) (lit "sent"))
      (fun e =>
         messagebox showerror (lit "Send Error")
           (lit "Failed to send command:" ++ nl ++ str_of_exn e)).

(** [send_serial_command] *)
Definition send_serial_command (written : Res unit) : M unit :=
  let* text := gets (fun w => serial_command_var (tk w)) in
  let command := strip text in
  when (truthy command)
       (send_serial_command_direct command written >>
        modify_tk (set_serial_command_var [])).

(** *** BLE: the device list *)

(** [device.name or "Unknown"] *)
Definition display_name (device : Device) : str :=
  match dev_name device with
  | Some n => if truthy n then n else lit "Unknown"
  | None => lit "Unknown"
  end.

(** [f"{name} ({address})"] *)
Definition display_text (device : Device) : str :=
  display_name device ++ lit " (" ++ dev_address device ++ lit ")".

(** ["XIAO" in name.upper() or "ESP32" in name.upper()] *)
Definition is_esp32_name (name : str) : bool :=
  contains (lit "XIAO") (upper name) || contains (lit "ESP32") (upper name).

(** The first loop of [_update_device_list]: the scan results are split
    into [esp32_devices] and [other_devices], in scan order. *)
Definition classify (devices : list Device)
  : list (Device * str) * list (Device * str) :=
  fold_left
    (fun '(esp32_devices, other_devices) device =>
       if is_esp32_name (display_name device)
       then (esp32_devices ++ [(device, display_text device)], other_devices)
       else (esp32_devices, other_devices ++ [(device, display_text device)]))
    devices ([], []).

(** The row prefixes and the separator, as the code points of the source
    file. *)
Definition esp32_prefix : str := [63743; 252; 233; 216; 32]%N.
Definition other_prefix : str := [63743; 252; 236; 177; 32]%N.
Definition separator : str := lit "--- Other Devices ---".

(** The rows of the listbox, [device_index_map] and [listbox_index]. *)
Definition Listing : Type := list str * gmap nat Device * nat.

(** The two loops that insert a row per device and record its index. *)
Definition add_rows (prefix : str) (items : list (Device * str))
           (st : Listing) : Listing :=
  fold_left
    (fun '(rows, index_map, listbox_index) '(device, text) =>
       (rows ++ [prefix ++ text],
        <[listbox_index := device]> index_map,
        S listbox_index))
    items st.

(** The separator is inserted, and its index skipped, when both kinds of
    device exist. *)
Definition add_separator (esp32_devices other_devices : list (Device * str))
           (st : Listing) : Listing :=
  match esp32_devices, other_devices with
  | _ :: _, _ :: _ =>
      let '(rows, index_map, listbox_index) := st in
      (rows ++ [separator], index_map, S listbox_index)
  | _, _ => st
  end.

(** The listing [_update_device_list] builds from the scan results. *)
Definition fill_listbox (devices : list Device) : Listing :=
  let '(esp32_devices, other_devices) := classify devices in
  add_rows other_prefix other_devices
    (add_separator esp32_devices other_devices
       (add_rows esp32_prefix esp32_devices ([], ∅, 0))).

(** [_update_device_list] *)
Definition _update_device_list (devices : list Device) : M unit :=
  let '(rows, index_map, _) := fill_listbox devices in
  modify_tk (fun t => set_curselection [] (set_device_listbox rows t)) >>
  modify_app (set_device_index_map (Some index_map)) >>
  modify_app (set_ble_devices (Some devices)) >>
  update_status (lit "Found " ++ of_nat (List.length devices) ++
                 lit " BLE device(s)").

(** [scan_ble_devices] *)
Definition scan_ble_devices : M unit :=
  let* available := gets BLEAK_AVAILABLE in
  if negb available then
    messagebox showwarning (lit "BLE Unavailable")
      (lit "BLE functionality requires the 'bleak' package." ++ nl ++
       lit "Install with: pip install bleak")
  else
    modify_tk (fun t =>
      set_curselection [] (set_device_listbox [lit "Scanning..."] t)) >>
    update_status (lit "Scanning for BLE devices...") >>
    start_thread Th_scan_ble_async.

(** The selection test shared by [inspect_ble_device] and [connect_ble]:
    the device to act on, after the warnings. *)
Definition selected_device : M (option Device) :=
  let* selection := gets (fun w => curselection (tk w)) in
  match selection with
  | [] =>
      messagebox showwarning (lit "No Selection")
                 (lit "Please select a BLE device first") >>
      ret None
  | listbox_index :: _ =>
      let* index_map := gets (fun w => device_index_map (app w)) in
      match index_map ≫= (fun m => m !! listbox_index) with
      | None =>
          messagebox showwarning (lit "Invalid Selection")
            (lit "Please select a valid BLE device (not a separator)") >>
          ret None
      | Some device => ret (Some device)
      end
  end.

(** [inspect_ble_device] *)
Definition inspect_ble_device : M unit :=
  let* device := selected_device in
  match device with
  | Some d => start_thread (Th_inspect_ble_async d)
  | None => ret tt
  end.

(** [connect_ble] *)
Definition connect_ble : M unit :=
  let* device := selected_device in
  match device with
  | Some d => start_thread (Th_connect_ble_async d)
  | None => ret tt
  end.

(** [disconnect_ble] *)
Definition disconnect_ble : M unit :=
  let* client := gets (fun w => ble_client (app w)) in
  match client with
  | Some _ => start_thread Th_disconnect_ble_async
  | None => ret tt
  end.

(** [toggle_ble_connection] *)
Definition toggle_ble_connection : M unit :=
  let* connected := gets (fun w => is_connected_ble (app w)) in
  if negb connected then connect_ble else disconnect_ble.

(** [send_ble_message] *)
Definition send_ble_message : M unit :=
  let* connected := gets (fun w => is_connected_ble (app w)) in
  if negb connected then
    messagebox showwarning (lit "Not Connected")
               (lit "Please connect to BLE device first")
  else
    let* text := gets (fun w => ble_command_var (tk w)) in
    let message := strip text in
    when (truthy message)
         (start_thread (Th_send_ble_async message) >>
          modify_tk (set_ble_command_var [])).

(** *** BLE: the coroutines *)

(** What bleak answers during one coroutine. *)
Record Bleak := {
  bk_discover : Res (list Device);   (* [BleakScanner.discover] *)
  bk_connect : Res unit;             (* [client.connect()] *)
  bk_services : list Service;        (* [client.services] *)
  bk_start_notify : Res unit;        (* [client.start_notify] *)
  bk_write : Res unit;               (* [client.write_gatt_char] *)
  bk_disconnect : Res unit;          (* [client.disconnect()] *)
  bk_disconnect_cleanup : Res unit;  (* the same call in a handler *)
  bk_is_connected : bool;            (* [client.is_connected] at the end *)
}.

(** [_scan_ble] *)
Definition _scan_ble (o : Bleak) : M Value :=
  let* devices := ble_call BridgeLoop BleDiscover (bk_discover o) in
  ret (VDevices devices).

(** [service.uuid.lower() == self.SERVICE_UUID.lower()], and the same
    for a characteristic. *)
Definition is_target_service (s : Service) : bool :=
  eqb (lower (svc_uuid s)) (lower SERVICE_UUID).

Definition is_target_char (c : Characteristic) : bool :=
  eqb (lower (chr_uuid c)) (lower CHARACTERISTIC_UUID).

(** The dictionaries of [_inspect_ble] for a characteristic and for a
    service. *)
Definition char_info (c : Characteristic) : CharInfo :=
  {| ci_uuid := chr_uuid c;
     ci_properties := chr_properties c;
     ci_description :=
       match chr_description c with
       | Some d => if truthy d then d else lit "Unknown"
       | None => lit "Unknown"
       end;
     ci_is_target := is_target_char c |}.

Definition service_info (s : Service) : ServiceInfo :=
  {| si_uuid := svc_uuid s;
     si_description := svc_description s;
     si_characteristics := map char_info (svc_characteristics s);
     si_is_target := is_target_service s |}.

(** [_inspect_ble] *)
Definition _inspect_ble (device : Device) (o : Bleak) : M Value :=
  let address := dev_address device in
  try_finally
    (ble_call BridgeLoop (BleConnect address) (bk_connect o) >>
     let services_info := map service_info (bk_services o) in
     ret (VInspect
       {| services := services_info;
          target_service_found := existsb si_is_target services_info;
          target_char_found :=
            existsb (fun s => existsb ci_is_target (si_characteristics s))
                    services_info |}))
    (when (bk_is_connected o)
          (ble_call BridgeLoop (BleDisconnect address) (bk_disconnect o))).

(** The inner loop of [_connect_ble], left by [break] at the first
    characteristic with the target UUID. *)
Fixpoint find_characteristic (chars : list Characteristic) : bool :=
  match chars with
  | [] => false
  | c :: cs => if is_target_char c then true else find_characteristic cs
  end.

(** The outer loop: [(service_found, characteristic_found)]; only the
    first service with the target UUID is searched. *)
Fixpoint find_service (svcs : list Service) : bool * bool :=
  match svcs with
  | [] => (false, false)
  | s :: ss =>
      if is_target_service s
      then (true, find_characteristic (svc_characteristics s))
      else find_service ss
  end.

(** The texts of the three error dialogs of [_connect_ble]. *)
Definition service_missing_text (device : Device) : str :=
  lit "Device '" ++ fmt_name device ++
  lit "' does not have the required service." ++ nl ++ nl ++
  lit "Expected Service UUID: " ++ SERVICE_UUID ++ nl ++ nl ++
  lit "This device may not be your XIAO ESP32S3. Please select the correct device.".

Definition characteristic_missing_text (device : Device) : str :=
  lit "Device '" ++ fmt_name device ++
  lit "' does not have the required characteristic." ++ nl ++ nl ++
  lit "Expected Characteristic UUID: " ++ CHARACTERISTIC_UUID ++ nl ++ nl ++
  lit "Make sure your ESP32S3 is running the correct firmware.".

Definition connect_failed_text (device : Device) (e : exn) : str :=
  lit "Failed to connect to '" ++ fmt_name device ++ lit "':" ++ nl ++
  str_of_exn e.

(** [_connect_ble] *)
Definition _connect_ble (device : Device) (o : Bleak) : M unit :=
  let address := dev_address device in
  try_except
    (modify_app (set_ble_client (Some {| cl_address := address |})) >>
     ble_call BridgeLoop (BleConnect address) (bk_connect o) >>
     let '(service_found, characteristic_found) :=
       find_service (bk_services o) in
     if negb service_found then
       ble_call BridgeLoop (BleDisconnect address) (bk_disconnect o) >>
       root_after (Cb_showerror (lit "BLE Error")
                                (service_missing_text device))
     else if negb characteristic_found then
       ble_call BridgeLoop (BleDisconnect address) (bk_disconnect o) >>
       root_after (Cb_showerror (lit "BLE Error")
                                (characteristic_missing_text device))
     else
       ble_call BridgeLoop (BleStartNotify address CHARACTERISTIC_UUID)
                (bk_start_notify o) >>
       modify_app (set_is_connected_ble true) >>
       root_after (Cb_ble_connected device))
    (fun e =>
       let* client := gets (fun w => ble_client (app w)) in
       match client with
       | Some c =>
           try_except
             (ble_call BridgeLoop (BleDisconnect (cl_address c))
                       (bk_disconnect_cleanup o))
             (fun _ => ret tt)
       | None => ret tt
       end >>
       root_after (Cb_showerror (lit "BLE Error")
                                (connect_failed_text device e))).

(** [_send_ble] *)
Definition _send_ble (message : str) (o : Bleak) : M unit :=
  let* client := gets (fun w => ble_client (app w)) in
  match client with
  | Some c =>
      ble_call BridgeLoop
        (BleWrite (cl_address c) CHARACTERISTIC_UUID (encode_utf8 message))
        (bk_write o)
  | None => ret tt
  end.

(** [_ble_notification_handler], called by bleak on the loop of the
    bridge for each value the peripheral pushes. *)
Definition _ble_notification_handler (data : bytes) : M unit :=
  try_except
    (let message := strip (decode_utf8_ignore data) in
     root_after (Cb_add_ble_message (lit "[BLE] " ++ message)
                                    (lit "received")))
    (fun e => print (lit "BLE notification error: " ++ str_of_exn e)).

(** *** The loop thread of the bridge *)

(** The body of a coroutine object. *)
Definition run_coro (c : Coro) (o : Bleak) : M Value :=
  match c with
  | Co_scan_ble => _scan_ble o
  | Co_inspect_ble device => _inspect_ble device o
  | Co_connect_ble device => _connect_ble device o >> ret VNone
  | Co_send_ble message => _send_ble message o >> ret VNone
  end.

(** The result or the exception of [m], as a value. *)
Definition capture {A} (m : M A) : M (Res A) :=
  fun w => let '(r, w') := m w in (Ok r, w').

(** One turn of the loop: the oldest coroutine of the queue runs, with
    the answers [o] of bleak, and completes its future. *)
Definition loop_step (o : Bleak) : M unit :=
  let* mgr := gets (fun w => asyncio_manager (app w)) in
  match mgr with
  | Some m =>
      match am_loop m with
      | Some l =>
          if loop_running l && negb (loop_closed l) then
            match loop_ready l with
            | (fut, c) :: rest =>
                modify_app (set_asyncio_manager
                  (Some (set_am_loop (Some (set_loop_ready rest l)) m))) >>
                let* r := capture (run_coro c o) in
                modify (fun w => set_futures (<[fut := r]> (futures w)) w)
            | [] => ret tt
            end
          else ret tt
      | None => ret tt
      end
  | None => ret tt
  end.

(** Successive turns of the loop. *)
Fixpoint loop_run (turns : list Bleak) : M unit :=
  match turns with
  | [] => ret tt
  | o :: os => loop_step o >> loop_run os
  end.

(** [future.result(timeout=t)]: the caller blocks while the loop makes
    the turns [turns]; it gets the result of the future when those
    complete it, and [TimeoutError] otherwise. *)
Definition future_result (fut : nat) (t : Z) (turns : list Bleak) : M Value :=
  modify (fun w => set_waits (waits w ++ [(fut, t)]) w) >>
  loop_run turns >>
  let* r := gets (fun w => futures w !! fut) in
  match r with
  | Some r => lift r
  | None => raise TimeoutError
  end.

(** *** BLE: the worker threads *)

(** [not self.asyncio_manager] *)
Definition no_manager : M bool :=
  let* mgr := gets (fun w => asyncio_manager (app w)) in
  ret (bool_decide (mgr = None)).

(** The result of a future, read as the list of devices or as the
    inspection it holds. *)
Definition devices_of (v : Value) : list Device :=
  match v with VDevices ds => ds | _ => [] end.

Definition inspect_of (v : Value) : InspectResult :=
  match v with
  | VInspect r => r
  | _ => {| services := []; target_service_found := false;
            target_char_found := false |}
  end.

(** [_scan_ble_async] *)
Definition _scan_ble_async (turns : list Bleak) : M unit :=
  let* missing := no_manager in
  if missing : bool then
    root_after (Cb_update_status (lit "BLE manager not available"))
  else
    try_except
      (let* future := run_async Co_scan_ble in
       let* devices := future_result future 10 turns in
       root_after (Cb_update_device_list (devices_of devices)))
      (fun e =>
         root_after (Cb_update_status (lit "BLE scan error: " ++ str_of_exn e))).

(** [_inspect_ble_async] *)
Definition _inspect_ble_async (device : Device) (turns : list Bleak) : M unit :=
  let* missing := no_manager in
  if missing : bool then
    root_after (Cb_update_status (lit "BLE manager not available"))
  else
    try_except
      (let* future := run_async (Co_inspect_ble device) in
       let* services_info := future_result future 10 turns in
       root_after (Cb_show_device_info device (inspect_of services_info)))
      (fun e =>
         root_after (Cb_showerror (lit "Inspection Error")
           (lit "Failed to inspect device:" ++ nl ++ str_of_exn e))).

(** [_connect_ble_async] *)
Definition _connect_ble_async (device : Device) (turns : list Bleak) : M unit :=
  let* missing := no_manager in
  if missing : bool then
    root_after (Cb_update_status (lit "BLE manager not available"))
  else
    try_except
      (let* future := run_async (Co_connect_ble device) in
       future_result future 10 turns >> ret tt)
      (fun e =>
         root_after (Cb_update_status
                       (lit "BLE connection error: " ++ str_of_exn e))).

(** [_send_ble_async] *)
Definition _send_ble_async (message : str) (turns : list Bleak) : M unit :=
  let* missing := no_manager in
  if missing : bool then
    root_after (Cb_showerror (lit "BLE Error")
                             (lit "BLE manager not available"))
  else
    try_except
      (let* future := run_async (Co_send_ble message) in
       future_result future 5 turns >>
       root_after (Cb_add_ble_message (lit "[GUI] Sent: " ++ message)
                                      (lit "sent")))
      (fun e =>
         root_after (Cb_showerror (lit "BLE Send Error")
           (lit "Failed to send message:" ++ nl ++ str_of_exn e))).

(** [_disconnect_ble_async]: a new event loop is made in the worker
    thread and runs [ble_client.disconnect()] to completion;
    [disconnected] is the answer of bleak. *)
Definition _disconnect_ble_async (disconnected : Res unit) : M unit :=
  let* n := gets private_loops in
  modify (set_private_loops (S n)) >>
  try_finally
    (try_except
       (let* client := gets (fun w => ble_client (app w)) in
        match client with
        | Some c =>
            ble_call (PrivateLoop n) (BleDisconnect (cl_address c))
                     disconnected
        | None => ret tt
        end)
       (fun e => print (lit "BLE disconnect error: " ++ str_of_exn e)))
    (root_after Cb_ble_disconnected).

(** *** BLE: the callbacks run by the GUI thread *)

(** [_ble_connected] *)
Definition _ble_connected (device : Device) : M unit :=
  modify_tk (set_ble_connect_btn (lit "Disconnect")) >>
  modify_tk (set_ble_status_var (lit "Connected to " ++ fmt_name device)) >>
  update_status (lit "Connected to BLE device: " ++ fmt_name device) >>
  add_ble_message (lit "[GUI] Connected to " ++ fmt_name device ++ lit " (" ++
                   dev_address device ++ lit ")") (lit "system") >>
  update_connection_status.

(** [_ble_disconnected] *)
Definition _ble_disconnected : M unit :=
  modify_app (set_ble_client None) >>
  modify_app (set_is_connected_ble false) >>
  modify_tk (set_ble_connect_btn (lit "Connect")) >>
  modify_tk (set_ble_status_var (lit "Not connected")) >>
  update_status (lit "Disconnected from BLE") >>
  add_ble_message (lit "[GUI] Disconnected from BLE") (lit "system") >>
  update_connection_status.

(** [_show_device_info] opens a window; the window is kept as its title
    and the inspection it renders. *)
Definition _show_device_info (device : Device) (services_info : InspectResult)
  : M unit :=
  modify_tk (fun t =>
    set_toplevels
      (toplevels t ++
         [(lit "BLE Device Inspector - " ++ fmt_name device, services_info)]) t).

(** What the GUI thread does when it takes a closure off the queue. *)
Definition run_callback (cb : Callback) : M unit :=
  match cb with
  | Cb_add_serial_message message msg_type => add_serial_message message msg_type
  | Cb_add_ble_message message msg_type => add_ble_message message msg_type
  | Cb_update_status message => update_status message
  | Cb_update_device_list devices => _update_device_list devices
  | Cb_show_device_info device services_info =>
      _show_device_info device services_info
  | Cb_showerror title message => messagebox showerror title message
  | Cb_ble_connected device => _ble_connected device
  | Cb_ble_disconnected => _ble_disconnected
  end.

(** One turn of [mainloop]: the oldest closure of the queue runs; an
    exception of a callback is reported by Tk on the console. *)
Definition mainloop_turn : M unit :=
  let* q := gets after_queue in
  match q with
  | [] => ret tt
  | cb :: rest =>
      modify (set_after_queue rest) >>
      try_except (run_callback cb)
        (fun e => print (lit "Exception in Tkinter callback: " ++ str_of_exn e))
  end.

(** *** Settings tab *)

(** [text.get(1.0, tk.END)]: the content and the final newline of Tk. *)
Definition text_get (content : str) : str := content ++ nl.

(** The successive [f.write] of [save_messages]. *)
Definition log_chunks (w : World) : list str :=
  [ lit "XIAO ESP32S3 Communication Log" ++ nl;
    lit "Generated: " ++ now_full w ++ nl;
    times "=" 50 ++ nl ++ nl;
    lit "USB Serial Messages:" ++ nl;
    times "-" 20 ++ nl;
    text_get (serial_messages (tk w)) ] ++
  match ble_messages (tk w) with
  | Some text =>
      [ nl ++ lit "BLE Messages:" ++ nl;
        times "-" 20 ++ nl;
        text_get text ]
  | None => []
  end.

(** What the file system answers while the log is written. *)
Inductive FileIO :=
| IoOk
| IoOpenFails (e : exn)
| IoWriteFails (done : nat) (e : exn).   (* after [done] writes *)

(** [with open(filename, 'w', encoding='utf-8') as f: ...] *)
Definition write_file (filename : str) (chunks : list str) (io : FileIO)
  : M unit :=
  match io with
  | IoOpenFails e => raise e
  | IoOk =>
      modify (fun w => set_files (<[filename := List.concat chunks]> (files w)) w)
  | IoWriteFails done e =>
      modify (fun w =>
        set_files (<[filename := List.concat (take done chunks)]> (files w)) w) >>
      if done <? List.length chunks then raise e else ret tt
  end.

(** [filename] is what the user chose in [asksaveasfilename], empty when
    the dialog was cancelled. *)
Definition save_messages (filename : str) (io : FileIO) : M unit :=
  when (truthy filename)
    (try_except
       (let* chunks := gets log_chunks in
        write_file filename chunks io >>
        update_status (lit "Messages saved to " ++ filename))
       (fun e =>
          messagebox showerror (lit "Save Error")
            (lit "Failed to save messages:" ++ nl ++ str_of_exn e))).

(** The first line of the About text. *)
Definition about_text : str :=
  lit "XIAO ESP32S3 Communication Interface".

(** [show_about]; of the text of the dialog only the first line is kept. *)
Definition show_about : M unit :=
  messagebox showinfo (lit "About") about_text.

(** [on_closing] *)
Definition on_closing : M unit :=
  modify_app (set_stop_threads true) >>
  let* serial := gets (fun w => is_connected_serial (app w)) in
  when serial disconnect_serial >>
  let* ble := gets (fun w => is_connected_ble (app w)) in
  when ble disconnect_ble >>
  let* missing := no_manager in
  when (negb missing) shutdown >>
  modify_tk (set_destroyed true).

(** *** Construction *)

(** [setup_serial_tab] *)
Definition setup_serial_tab : M unit :=
  modify_tk (fun t =>
    set_notebook (notebook t ++ [lit "USB Serial"])
      (set_serial_port_var (lit "COM9")
        (set_baud_var (lit "115200")
          (set_serial_connect_btn (lit "Connect")
            (set_serial_messages [] (set_serial_command_var [] t)))))).

(** [setup_ble_tab] *)
Definition setup_ble_tab : M unit :=
  modify_tk (fun t =>
    set_notebook (notebook t ++ [lit "BLE Communication"])
      (set_device_listbox []
        (set_ble_connect_btn (lit "Connect")
          (set_ble_status_var (lit "Not connected")
            (set_ble_messages (Some []) (set_ble_command_var [] t)))))).

(** [setup_settings_tab] *)
Definition setup_settings_tab : M unit :=
  modify_tk (fun t =>
    set_notebook (notebook t ++ [lit "Settings & Info"])
      (set_auto_scroll_var true (set_timestamp_var true t))).

(** [setup_status_bar] *)
Definition setup_status_bar : M unit :=
  modify_tk (fun t =>
    set_status_var (lit "Ready")
      (set_connection_status_var (lit "Disconnected") t)).

(** [setup_gui] *)
Definition setup_gui : M unit :=
  setup_serial_tab >>
  let* available := gets BLEAK_AVAILABLE in
  when available setup_ble_tab >>
  setup_settings_tab >>
  setup_status_bar.

(** The world before [ESP32S3_GUI(root)]: nothing built, nothing stored
    but [fs], bleak importable or not. *)
Definition blank (bleak : bool) (fs : gmap str str) (hms full : str) : World :=
  {| BLEAK_AVAILABLE := bleak;
     app := {| serial_connection := None; ble_client := None;
               is_connected_serial := false; is_connected_ble := false;
               message_count := 0; serial_thread := None;
               stop_threads := false; asyncio_manager := None;
               device_index_map := None; ble_devices := None |};
     tk := {| notebook := []; serial_port_var := []; serial_port_combo := [];
              baud_var := []; serial_connect_btn := [];
              serial_messages := []; serial_command_var := [];
              device_listbox := []; curselection := [];
              ble_connect_btn := []; ble_status_var := [];
              ble_messages := None; ble_command_var := [];
              auto_scroll_var := false; timestamp_var := false;
              status_var := []; connection_status_var := [];
              toplevels := []; destroyed := false |};
     after_queue := []; dialogs := []; stdout := []; threads := [];
     files := fs; serial_calls := []; ble_calls := [];
     futures := ∅; next_future := 0; waits := []; private_loops := 0;
     now_hms := hms; now_full := full |}.

(** [ESP32S3_GUI.__init__] *)
Definition ESP32S3_GUI_init (ports : list str) : M unit :=
  let* available := gets BLEAK_AVAILABLE in
  (if available : bool then
     let* m := AsyncioManager_init in
     modify_app (set_asyncio_manager (Some m))
   else modify_app (set_asyncio_manager None)) >>
  setup_gui >>
  refresh_serial_ports ports.

(** The transports the notebook offers, by the titles of its tabs. *)
Inductive Transport := UsbSerial | Ble.

(** The transport a tab stands for, if any. *)
Definition transport_of_tab (title : str) : option Transport :=
  if eqb title (lit "USB Serial") then Some UsbSerial
  else if eqb title (lit "BLE Communication") then Some Ble
  else None.

Definition transports (w : World) : list Transport :=
  omap transport_of_tab (notebook (tk w)).

(** *** The operations of the running application *)

(** What the threads meet while they run: the turns of the serial
    reader, the turns the loop makes while a worker waits, and the answer
    to a disconnection. *)
Record Env := {
  env_polls : list SerialPoll;
  env_turns : list Bleak;
  env_disconnected : Res unit;
}.

(** The body of a thread. *)
Definition run_thread (t : Thread) (env : Env) : M unit :=
  match t with
  | Th_run_loop => loop_run (env_turns env)
  | Th_read_serial_messages => read_serial_messages (env_polls env)
  | Th_scan_ble_async => _scan_ble_async (env_turns env)
  | Th_inspect_ble_async device => _inspect_ble_async device (env_turns env)
  | Th_connect_ble_async device => _connect_ble_async device (env_turns env)
  | Th_disconnect_ble_async => _disconnect_ble_async (env_disconnected env)
  | Th_send_ble_async message => _send_ble_async message (env_turns env)
  end.

(** The buttons and keys of the interface, the turns of [mainloop], the
    threads, and the notifications of the peripheral. *)
Inductive Op :=
| Op_refresh_serial_ports (ports : list str)
| Op_toggle_serial_connection (opened : Res unit)
| Op_send_serial_command (written : Res unit)
| Op_send_serial_command_direct (command : str) (written : Res unit)
| Op_scan_ble_devices
| Op_inspect_ble_device
| Op_toggle_ble_connection
| Op_send_ble_message
| Op_save_messages (filename : str) (io : FileIO)
| Op_clear_all_messages
| Op_show_about
| Op_on_closing
| Op_mainloop_turn
| Op_thread (t : Thread) (env : Env)
| Op_notification (data : bytes).

(** What an operation runs. *)
Definition run_op (op : Op) : M unit :=
  match op with
  | Op_refresh_serial_ports ports => refresh_serial_ports ports
  | Op_toggle_serial_connection opened => toggle_serial_connection opened
  | Op_send_serial_command written => send_serial_command written
  | Op_send_serial_command_direct command written =>
      send_serial_command_direct command written
  | Op_scan_ble_devices => scan_ble_devices
  | Op_inspect_ble_device => inspect_ble_device
  | Op_toggle_ble_connection => toggle_ble_connection
  | Op_send_ble_message => send_ble_message
  | Op_save_messages filename io => save_messages filename io
  | Op_clear_all_messages => clear_all_messages
  | Op_show_about => show_about
  | Op_on_closing => on_closing
  | Op_mainloop_turn => mainloop_turn
  | Op_thread t env => run_thread t env
  | Op_notification data => _ble_notification_handler data
  end.


(** *** The two scripts

    [ble_scanner.py] and [ble_connect_test.py] run on their own, on a
    loop made by [asyncio.run].  Of what they print only the lines that
    report an error of the library are kept. *)

(** The loop [asyncio.run] makes for a script. *)
Definition script_loop : LoopId := PrivateLoop 0.

(** [ble_scanner.py] *)
Definition TARGET_NAME : str := lit "XIAO-ESP32S3-Test".

(** [device.name or "Unknown Device"], then the test of the scanner. *)
Definition scanner_is_target (device : Device) : bool :=
  let name :=
    match dev_name device with
    | Some n => if truthy n then n else lit "Unknown Device"
    | None => lit "Unknown Device"
    end in
  contains (lower TARGET_NAME) (lower name) ||
  contains (lit "esp32") (lower name).

(** [scan_for_devices]; [discovered] is the answer of
    [BleakScanner.discover(timeout=10.0)]. *)
Definition scan_for_devices (discovered : Res (list Device)) : M bool :=
  let* devices := ble_call script_loop BleDiscover discovered in
  match devices with
  | [] => ret false
  | _ :: _ => ret (existsb scanner_is_target devices)
  end.

(** [ble_connect_test.py] *)
Definition ESP32_ADDRESS : str := lit "B8:F8:62:FB:87:6D".
Definition DEVICE_NAME_UUID : str :=
  lit "00002a00-0000-1000-8000-00805f9b34fb".

(** What bleak answers to the connection test. *)
Record Tester := {
  ts_connect : Res unit;
  ts_is_connected : bool;
  ts_read_name : Res bytes;
  ts_read : Res bytes;
  ts_write : Res unit;
  ts_read_back : Res bytes;
  ts_disconnect : Res unit;
}.

(** An awaited call of the connection test, its value dropped. *)
Definition tester_call {A} (c : BleCall) (r : Res A) : M unit :=
  ble_call script_loop c r >> ret tt.

(** [test_esp32_connection]: [async with BleakClient(ESP32_ADDRESS)]
    connects on entry and disconnects on exit. *)
Definition test_esp32_connection (o : Tester) : M unit :=
  try_except
    (tester_call (BleConnect ESP32_ADDRESS) (ts_connect o) >>
     try_finally
       (when (ts_is_connected o)
          (try_except
             (tester_call (BleRead ESP32_ADDRESS DEVICE_NAME_UUID)
                          (ts_read_name o))
             (fun _ => print ([128219; 32]%N ++
                              lit "Device Name: Could not read")) >>
           try_except
             (tester_call (BleRead ESP32_ADDRESS CHARACTERISTIC_UUID)
                          (ts_read o))
             (fun e => print ([10060; 32]%N ++
                              lit "Could not read characteristic: " ++
                              str_of_exn e)) >>
           try_except
             (tester_call
                (BleWrite ESP32_ADDRESS CHARACTERISTIC_UUID
                   (encode_utf8 (lit "Hello from Python BLE client!")))
                (ts_write o) >>
              tester_call (BleRead ESP32_ADDRESS CHARACTERISTIC_UUID)
                          (ts_read_back o))
             (fun e => print ([10060; 32]%N ++
                              lit "Could not write to characteristic: " ++
                              str_of_exn e))))
       (tester_call (BleDisconnect ESP32_ADDRESS) (ts_disconnect o)))
    (fun e => print ([10060; 32]%N ++ lit "Connection failed: " ++ str_of_exn e)).

(** *** Worlds for examples *)

(** The application just built, with bleak and without, no serial port
    found, at noon. *)
Definition w_ready : World :=
  exec (ESP32S3_GUI_init [])
       (blank true ∅ (lit "12:00:00") (lit "2025-11-01 12:00:00")).

Definition w_no_bleak : World :=
  exec (ESP32S3_GUI_init [])
       (blank false ∅ (lit "12:00:00") (lit "2025-11-01 12:00:00")).

(** Three devices a scan may find. *)
Definition xiao : Device :=
  {| dev_name := Some (lit "XIAO-ESP32S3-Test");
     dev_address := lit "B8:F8:62:FB:87:6D" |}.

Definition speaker : Device :=
  {| dev_name := Some (lit "Speaker"); dev_address := lit "00:11:22:33:44:55" |}.

Definition nameless : Device :=
  {| dev_name := None; dev_address := lit "66:77:88:99:AA:BB" |}.

(** A peripheral with the target service and characteristic. *)
Definition firmware_services : list Service :=
  [ {| svc_uuid := lit "00001800-0000-1000-8000-00805f9b34fb";
       svc_description := lit "Generic Access Profile";
       svc_characteristics := [] |};
    {| svc_uuid := SERVICE_UUID;
       svc_description := lit "Unknown";
       svc_characteristics :=
         [ {| chr_uuid := CHARACTERISTIC_UUID;
              chr_properties := [lit "read"; lit "write"; lit "notify"];
              chr_description := None |} ] |} ].

(** bleak answering well, and bleak failing with [e] at every call. *)
Definition bleak_ok (found : list Device) (svcs : list Service) : Bleak :=
  {| bk_discover := Ok found; bk_connect := Ok tt; bk_services := svcs;
     bk_start_notify := Ok tt; bk_write := Ok tt; bk_disconnect := Ok tt;
     bk_disconnect_cleanup := Ok tt; bk_is_connected := true |}.


(** Threads that meet nothing: no serial turn, no turn of the loop. *)
Definition no_env : Env :=
  {| env_polls := []; env_turns := []; env_disconnected := Ok tt |}.

(** An error of a library. *)
Definition adapter_off : exn := LibError (lit "adapter off").

(** The loop and the manager of [w_ready]. *)
Definition idle_loop : Loop :=
  {| loop_running := true; loop_closed := false; loop_ready := [] |}.

Definition fresh_manager : AsyncioManager :=
  {| am_loop := Some idle_loop; am_thread := Some Th_run_loop;
     am_executor_open := true |}.

(** [w_ready] with text typed in the two entry fields. *)
Definition typed (serial_text ble_text : str) : World :=
  set_tk (set_serial_command_var serial_text
            (set_ble_command_var ble_text (tk w_ready))) w_ready.

(** The default port of the application. *)
Definition com9 : Serial := {| ser_port := lit "COM9"; ser_baud := 115200 |}.

(** [w] with the serial port open. *)
Definition on_serial (w : World) : World :=
  set_app (set_is_connected_serial true
             (set_serial_connection (Some com9) (app w))) w.

(* =================================================================== *)
(** ** Vocabulary of the statements *)
(* =================================================================== *)

(** The widgets and the message boxes are as before; the queue of
    [root.after] has only grown. *)
Definition gui_untouched (w w' : World) : Prop :=
  tk w' = tk w /\ dialogs w' = dialogs w /\
  exists posted, after_queue w' = after_queue w ++ posted.

(** The storage is as before. *)
Definition same_files (w w' : World) : Prop := files w' = files w.

(** The dialog of [save_messages] for the exception [e]. *)
Definition save_error (e : exn) : Dialog :=
  {| dlg_kind := showerror; dlg_title := lit "Save Error";
     dlg_message := lit "Failed to save messages:" ++ nl ++ str_of_exn e |}.

(** The world after a save that wrote [content] and did not fail. *)
Definition saved (filename content : str) (w : World) : World :=
  set_tk (set_status_var (lit "Messages saved to " ++ filename) (tk w))
         (set_files (<[filename := content]> (files w)) w).

(** The test of [_update_device_list] on a device. *)
Definition is_esp32 (device : Device) : bool :=
  is_esp32_name (display_name device).

(** What a row of the listbox stands for: a device, or the separator. *)
Definition entries (devices : list Device) : list (option Device) :=
  let esp32_devices := List.filter is_esp32 devices in
  let other_devices := List.filter (fun d => negb (is_esp32 d)) devices in
  (Some <$> esp32_devices) ++
  match esp32_devices, other_devices with
  | _ :: _, _ :: _ => [None]
  | _, _ => []
  end ++
  (Some <$> other_devices).

(** The text of the row of an entry. *)
Definition row_of (entry : option Device) : str :=
  match entry with
  | Some d =>
      (if is_esp32 d then esp32_prefix else other_prefix) ++ display_text d
  | None => separator
  end.

(** The devices of [index_map] met from row 0 to row [n - 1]. *)
Definition listed (index_map : gmap nat Device) (n : nat) : list Device :=
  omap (fun i => index_map !! i) (seq 0 n).

(** A device with its text, as kept in [esp32_devices] and
    [other_devices]. *)
Definition tag (d : Device) : Device * str := (d, display_text d).

(** [index_map] agrees with the entries [ents] of the rows so far. *)
Definition agrees (index_map : gmap nat Device) (ents : list (option Device))
  : Prop :=
  forall i, index_map !! i = ents !! i ≫= id.

(** The calls into bleak made between [w] and [w']. *)
Definition new_ble_calls (w w' : World) : list (LoopId * BleCall) :=
  drop (List.length (ble_calls w)) (ble_calls w').


(** The warnings of the two send operations. *)
Definition serial_warning : Dialog :=
  {| dlg_kind := showwarning; dlg_title := lit "Not Connected";
     dlg_message := lit "Please connect to serial port first" |}.

Definition ble_warning : Dialog :=
  {| dlg_kind := showwarning; dlg_title := lit "Not Connected";
     dlg_message := lit "Please connect to BLE device first" |}.

(** The cross-thread calls of the program: the coroutine each worker
    submits and the seconds it waits for the future. *)
Definition bridge_call (t : Thread) : option (Coro * Z) :=
  match t with
  | Th_scan_ble_async => Some (Co_scan_ble, 10%Z)
  | Th_inspect_ble_async device => Some (Co_inspect_ble device, 10%Z)
  | Th_connect_ble_async device => Some (Co_connect_ble device, 10%Z)
  | Th_send_ble_async message => Some (Co_send_ble message, 5%Z)
  | Th_run_loop | Th_read_serial_messages | Th_disconnect_ble_async => None
  end.

(** The queue of the loop of the bridge. *)
Definition bridge_queue (w : World) : list (nat * Coro) :=
  match asyncio_manager (app w) ≫= am_loop with
  | Some l => loop_ready l
  | None => []
  end.

(** Nothing was submitted to the bridge and nothing awaited from it. *)
Definition bridge_untouched (w w' : World) : Prop :=
  asyncio_manager (app w') = asyncio_manager (app w) /\
  next_future w' = next_future w /\ waits w' = waits w /\
  futures w' = futures w.

(** The [AsyncioManager] and its loop are as before. *)
Definition same_manager (w w' : World) : Prop :=
  asyncio_manager (app w') = asyncio_manager (app w).

(** The loop may have run, but no future was made or awaited. *)
Definition same_futures_made (w w' : World) : Prop :=
  next_future w' = next_future w /\ waits w' = waits w.

(** Threads started between [w] and [w'] never run the loop of the
    bridge. *)
Definition no_new_loop_thread (w w' : World) : Prop :=
  exists ts, threads w' = threads w ++ ts /\ Th_run_loop ∉ ts.

(** The loop of the bridge runs and has nothing queued. *)
Definition bridge_idle (w : World) : Prop :=
  exists m l, asyncio_manager (app w) = Some m /\ am_loop m = Some l /\
              loop_closed l = false /\ loop_running l = true /\
              loop_ready l = [].

(** [messagebox.showerror(title, message)] *)
Definition error_dialog (title message : str) : Dialog :=
  {| dlg_kind := showerror; dlg_title := title; dlg_message := message |}.

(** The peripheral a call into bleak addresses. *)
Definition call_address (c : BleCall) : option str :=
  match c with
  | BleDiscover => None
  | BleConnect a | BleDisconnect a | BleStartNotify a _ | BleRead a _
  | BleWrite a _ _ => Some a
  end.

(* =================================================================== *)
(** ** Vocabulary of the further properties *)
(* =================================================================== *)

(** [preserves P m]: if [P] holds before [m], it holds after, whatever
    [m] returns or raises. *)
Definition preserves {A} (P : World -> Prop) (m : M A) : Prop :=
  forall w, P w -> P (exec m w).

(** The dialog of [connect_serial] for the exception [e]. *)
Definition connection_error (port : str) (e : exn) : Dialog :=
  error_dialog (lit "Connection Error")
    (lit "Failed to connect to " ++ port ++ lit ":" ++ nl ++ str_of_exn e).

(** What one turn of the serial reader hands to the GUI thread. *)
Definition poll_message (p : SerialPoll) : option Callback :=
  match p with
  | PollIdle => None
  | PollLine data =>
      let message := strip (decode_utf8_ignore data) in
      if truthy message
      then Some (Cb_add_serial_message message (lit "received"))
      else None
  | PollError e =>
      Some (Cb_update_status (lit "Serial read error: " ++ str_of_exn e))
  end.

(** What the reader hands over along [polls]: a message per line that is
    not blank, up to the first error, which is reported and ends it. *)
Fixpoint reader_posts (polls : list SerialPoll) : list Callback :=
  match polls with
  | [] => []
  | PollError e :: _ => option_list (poll_message (PollError e))
  | p :: ps => option_list (poll_message p) ++ reader_posts ps
  end.

(** The calls the reader makes into pyserial along [polls]. *)
Fixpoint reader_calls (port : str) (polls : list SerialPoll) : list SerialCall :=
  match polls with
  | [] => []
  | PollIdle :: ps => reader_calls port ps
  | PollLine _ :: ps => SerReadline port :: reader_calls port ps
  | PollError _ :: _ => [SerReadline port]
  end.

(** The warnings of the selection test. *)
Definition no_selection : Dialog :=
  {| dlg_kind := showwarning; dlg_title := lit "No Selection";
     dlg_message := lit "Please select a BLE device first" |}.

Definition invalid_selection : Dialog :=
  {| dlg_kind := showwarning; dlg_title := lit "Invalid Selection";
     dlg_message := lit "Please select a valid BLE device (not a separator)" |}.

(** The user selects rows of the listbox. *)
Definition select_rows (rows : list nat) (w : World) : World :=
  set_tk (set_curselection rows (tk w)) w.


(** Operations one after the other, from the first of the list. *)
Definition run_ops (ops : list Op) (w : World) : World :=
  fold_left (fun w op => exec (run_op op) w) ops w.

(** The flag of the serial port is up exactly when there is a connection
    object; the flag of BLE is up only when there is a client. *)
Definition serial_consistent (w : World) : Prop :=
  is_connected_serial (app w) = true <-> is_Some (serial_connection (app w)).

Definition ble_consistent (w : World) : Prop :=
  is_connected_ble (app w) = true -> is_Some (ble_client (app w)).

(** The serial connection and its flag are as before; the BLE client and
    its flag are as before. *)
Definition same_serial_link (w w' : World) : Prop :=
  serial_connection (app w') = serial_connection (app w) /\
  is_connected_serial (app w') = is_connected_serial (app w).

Definition same_ble_link (w w' : World) : Prop :=
  ble_client (app w') = ble_client (app w) /\
  is_connected_ble (app w') = is_connected_ble (app w).

(** The serial port is open, with its flag up; it is closed, with its
    flag down. *)
Definition serial_open (w : World) : Prop :=
  is_connected_serial (app w) = true /\ is_Some (serial_connection (app w)).

Definition serial_closed (w : World) : Prop :=
  is_connected_serial (app w) = false /\ serial_connection (app w) = None.

(** Between [w] and [w'] the serial link was left alone or closed. *)
Definition closed_or_same (w w' : World) : Prop :=
  same_serial_link w w' \/ serial_closed w'.

(** [P] is not lost between [w] and [w']. *)
Definition keeps (P : World -> Prop) (w w' : World) : Prop := P w -> P w'.

(** Nothing but widgets, dialogs, the console and the attributes of the
    application changed: no thread, no call into a library, no file, no
    closure queued, nothing on the bridge. *)
Definition quiet (w w' : World) : Prop :=
  threads w' = threads w /\ serial_calls w' = serial_calls w /\
  ble_calls w' = ble_calls w /\ files w' = files w /\
  after_queue w' = after_queue w /\ futures w' = futures w /\
  next_future w' = next_future w /\
  asyncio_manager (app w') = asyncio_manager (app w).

(** The two displays have only got longer and the counter has not gone
    down. *)
Definition logs_grow (w w' : World) : Prop :=
  serial_messages (tk w) `prefix_of` serial_messages (tk w') /\
  (forall text, ble_messages (tk w) = Some text ->
     exists text', ble_messages (tk w') = Some text' /\
                   text `prefix_of` text') /\
  message_count (app w) <= message_count (app w').

(** The line the connection test prints when its outer handler runs, and
    the write it makes to the characteristic. *)
Definition connection_failed_line (e : exn) : str :=
  [10060; 32]%N ++ lit "Connection failed: " ++ str_of_exn e.

Definition test_write : LoopId * BleCall :=
  (script_loop,
   BleWrite ESP32_ADDRESS CHARACTERISTIC_UUID
     (encode_utf8 (lit "Hello from Python BLE client!"))).

(** *** [setup.py]

    The script prints, runs pip, asks two questions and may start the
    GUI.  Its state is what it printed, the packages it handed to pip,
    its prompts, and how often it called [esp32s3_gui.main()]. *)

Record Setup := {
  su_stdout : list str;
  su_pip : list str;
  su_prompts : list str;
  su_launches : nat;
}.

(** What [subprocess.check_call] does for a package: it returns, raises
    [CalledProcessError] with the text [text], or raises something
    else. *)
Inductive Pip :=
| PipOk
| PipFails (text : str)
| PipCrashes (e : exn).

(** The machine the script runs on. *)
Record Host := {
  version_major : Z;           (* [sys.version_info.major] *)
  version_minor : Z;           (* [sys.version_info.minor] *)
  pip_install : str -> Pip;
  host_answer : str;           (* typed at the launch question *)
  gui_main : Res unit;         (* [import esp32s3_gui; esp32s3_gui.main()] *)
}.

Definition su_print (s : str) (st : Setup) : Setup :=
  {| su_stdout := su_stdout st ++ [s]; su_pip := su_pip st;
     su_prompts := su_prompts st; su_launches := su_launches st |}.

Definition su_input (prompt : str) (st : Setup) : Setup :=
  {| su_stdout := su_stdout st; su_pip := su_pip st;
     su_prompts := su_prompts st ++ [prompt]; su_launches := su_launches st |}.

Definition su_check_call (package : str) (st : Setup) : Setup :=
  {| su_stdout := su_stdout st; su_pip := su_pip st ++ [package];
     su_prompts := su_prompts st; su_launches := su_launches st |}.

Definition su_launch (st : Setup) : Setup :=
  {| su_stdout := su_stdout st; su_pip := su_pip st;
     su_prompts := su_prompts st; su_launches := S (su_launches st) |}.

(** The [for] of [install_requirements] over [packages]. *)
Fixpoint install_packages (pip : str -> Pip) (packages : list str) (st : Setup)
  : Res bool * Setup :=
  match packages with
  | [] => (Ok true, st)
  | package :: rest =>
      let st := su_print (lit "Installing " ++ package ++ lit "...") st in
      let st := su_check_call package st in
      match pip package with
      | PipOk =>
          install_packages pip rest
            (su_print ([10003; 32]%N ++ package ++
                       lit " installed successfully") st)
      | PipFails text =>
          (Ok false,
           su_print ([10007; 32]%N ++ lit "Failed to install " ++ package ++
                     lit ": " ++ text) st)
      | PipCrashes e => (Raise e, st)
      end
  end.

Definition requirements : list str := [lit "pyserial"; lit "bleak"].

(** [install_requirements] *)
Definition install_requirements (pip : str -> Pip) (st : Setup)
  : Res bool * Setup :=
  install_packages pip requirements
    (su_print (lit "Installing required packages...") st).

(** [check_python_version] *)
Definition check_python_version (major minor : Z) (st : Setup) : bool * Setup :=
  if ((major <? 3) || ((major =? 3) && (minor <? 7)))%Z then
    (false,
     su_print (lit "Error: Python 3.7+ required. Current version: " ++
               lit (pretty major) ++ lit "." ++ lit (pretty minor)) st)
  else (true, st).

(** [main] of [setup.py] *)
Definition setup_main (h : Host) (st : Setup) : Res unit * Setup :=
  let st := su_print (lit "XIAO ESP32S3 GUI Setup") st in
  let st := su_print (times "=" 30) st in
  let '(ok, st) :=
    check_python_version (version_major h) (version_minor h) st in
  if negb ok then (Ok tt, su_input (lit "Press Enter to exit...") st)
  else
    let st := su_print ([10003; 32]%N ++ lit "Python " ++
                        lit (pretty (version_major h)) ++ lit "." ++
                        lit (pretty (version_minor h)) ++ lit " detected") st in
    let '(r, st) := install_requirements (pip_install h) st in
    match r with
    | Raise e => (Raise e, st)
    | Ok true =>
        let st := su_print (nl ++ [10003; 32]%N ++
                            lit "All packages installed successfully!") st in
        let st := su_print (nl ++ lit "You can now run the GUI with:") st in
        let st := su_print (lit "  python esp32s3_gui.py") st in
        let st := su_input (nl ++
                            lit "Would you like to launch the GUI now? (y/n): ")
                           st in
        let choice := lower (host_answer h) in
        let st :=
          if eqb choice (lit "y") || eqb choice (lit "yes") then
            let st := su_launch st in
            match gui_main h with
            | Ok _ => st
            | Raise e => su_print (lit "Error launching GUI: " ++ str_of_exn e) st
            end
          else st in
        (Ok tt, su_input (nl ++ lit "Press Enter to exit...") st)
    | Ok false =>
        let st := su_print (nl ++ [10007; 32]%N ++
                            lit "Setup failed. Please install packages manually:")
                           st in
        let st := su_print (lit "  pip install pyserial bleak") st in
        (Ok tt, su_input (nl ++ lit "Press Enter to exit...") st)
    end.


(** The script before it printed anything, and a machine with Python
    [major].[minor] on which pip fails for the packages of [broken] and
    where the user types [typed]. *)
Definition setup_start : Setup :=
  {| su_stdout := []; su_pip := []; su_prompts := []; su_launches := 0 |}.

Definition host (major minor : Z) (broken : list str) (typed : str) : Host :=
  {| version_major := major; version_minor := minor;
     pip_install := fun p =>
       if bool_decide (p ∈ broken)
       then PipFails (lit "returned non-zero exit status 1.")
       else PipOk;
     host_answer := typed;
     gui_main := Raise (LibError (lit "no display")) |}.

(** What waits on the open port: a line, nothing, an error, a line. *)
Definition polls_example : list SerialPoll :=
  [ PollLine (latin1_encode (lit "ready" ++ nl)); PollIdle;
    PollError adapter_off; PollLine (latin1_encode (lit "late" ++ nl)) ].

(** The two flags of the inspector are taken over all services, the test
    of [_connect_ble] in the first service with the target UUID: a
    peripheral with the characteristic in another service is shown as
    compatible and then refused. *)
Definition split_services : list Service :=
  [ {| svc_uuid := SERVICE_UUID; svc_description := lit "Unknown";
       svc_characteristics := [] |};
    {| svc_uuid := lit "0000180a-0000-1000-8000-00805f9b34fb";
       svc_description := lit "Device Information";
       svc_characteristics :=
         [ {| chr_uuid := CHARACTERISTIC_UUID;
              chr_properties := [lit "read"];
              chr_description := None |} ] |} ].

(* =================================================================== *)
(** ** Preservation of a relation along a method *)
(* =================================================================== *)

(** [respects R m]: whatever [m] returns or raises, the world it leaves
    is [R]-related to the one it started from. *)
Definition respects {A} (R : relation World) (m : M A) : Prop :=
  forall w, R w (exec m w).

Section Respects.

Context (R : relation World) `{!PreOrder R}.

Lemma respects_ret {A} (a : A) : respects R (ret a).
Proof. intros w. reflexivity. Qed.

Lemma respects_raise {A} (e : exn) : respects R (raise (A := A) e).
Proof. intros w. reflexivity. Qed.

Lemma respects_lift {A} (r : Res A) : respects R (lift r).
Proof. intros w. reflexivity. Qed.

Lemma respects_gets {A} (f : World -> A) : respects R (gets f).
Proof. intros w. reflexivity. Qed.

Lemma respects_modify (f : World -> World) :
  (forall w, R w (f w)) -> respects R (modify f).
Proof. intros H w. apply H. Qed.

Lemma respects_bind {A B} (m : M A) (k : A -> M B) :
  respects R m -> (forall a, respects R (k a)) -> respects R (bind m k).
Proof.
  intros Hm Hk w. unfold exec, bind.
  specialize (Hm w). unfold exec in Hm.
  destruct (m w) as [[a | e] w']; simpl in *; [|done].
  etrans; [exact Hm | apply Hk].
Qed.

Lemma respects_try_except {A} (m : M A) (h : exn -> M A) :
  respects R m -> (forall e, respects R (h e)) -> respects R (try_except m h).
Proof.
  intros Hm Hh w. unfold exec, try_except.
  specialize (Hm w). unfold exec in Hm.
  destruct (m w) as [[a | e] w']; simpl in *; [done|].
  etrans; [exact Hm | apply Hh].
Qed.

Lemma respects_try_finally {A} (m : M A) (f : M unit) :
  respects R m -> respects R f -> respects R (try_finally m f).
Proof.
  intros Hm Hf w. unfold exec, try_finally.
  specialize (Hm w). unfold exec in Hm.
  destruct (m w) as [r w']; simpl in *.
  specialize (Hf w'). unfold exec in Hf.
  destruct (f w') as [[[] | e] w'']; simpl in *; by etrans.
Qed.

Lemma respects_capture {A} (m : M A) :
  respects R m -> respects R (capture m).
Proof.
  intros Hm w. unfold exec, capture.
  specialize (Hm w). unfold exec in Hm.
  by destruct (m w) as [r w'].
Qed.

Lemma respects_when (b : bool) (m : M unit) :
  respects R m -> respects R (when b m).
Proof. destruct b; [done | intros _; apply respects_ret]. Qed.

End Respects.

Create HintDb methods.
#[local] Hint Unfold modify_app modify_tk root_after messagebox print start_thread
     serial_call ble_call tester_call update_status no_manager : methods.

(** One step through the syntax of a method. *)
Ltac respects_rule :=
  lazymatch goal with
  | |- respects _ (bind _ _) => apply respects_bind
  | |- respects _ (ret _) => apply respects_ret
  | |- respects _ (raise _) => apply respects_raise
  | |- respects _ (lift _) => apply respects_lift
  | |- respects _ (gets _) => apply respects_gets
  | |- respects _ (try_except _ _) => apply respects_try_except
  | |- respects _ (try_finally _ _) => apply respects_try_finally
  | |- respects _ (capture _) => apply respects_capture
  | |- respects _ (when _ _) => apply respects_when
  | |- respects _ (modify _) => apply respects_modify
  | |- respects _ (match ?x with _ => _ end) => destruct x
  end.

Ltac respects_tidy :=
  lazymatch goal with
  | |- PreOrder _ => typeclasses eauto
  | |- forall _, _ => intros ?
  | |- _ => idtac
  end.

Ltac respects_step := respects_rule; respects_tidy.

Ltac respects_walk :=
  repeat first [progress autounfold with methods | respects_step].

(** *** The GUI state is left alone *)

#[local] Instance gui_untouched_preorder : PreOrder gui_untouched.
Proof.
  split.
  - intros w. repeat split. exists []. by rewrite app_nil_r.
  - intros w1 w2 w3 (Ht1 & Hd1 & q1 & Hq1) (Ht2 & Hd2 & q2 & Hq2).
    repeat split; [congruence | congruence |].
    exists (q1 ++ q2). by rewrite Hq2, Hq1, <- app_assoc.
Qed.












(** *** Storage *)

#[local] Instance same_files_preorder : PreOrder same_files.
Proof. split; unfold same_files; [done | congruence]. Qed.

Create HintDb bodies.
#[local] Hint Unfold run_async shutdown update_connection_status
  add_serial_message add_ble_message clear_all_messages
  refresh_serial_ports connect_serial disconnect_serial
  toggle_serial_connection read_serial_turn send_serial_command_direct
  send_serial_command _update_device_list scan_ble_devices selected_device
  inspect_ble_device connect_ble disconnect_ble toggle_ble_connection
  send_ble_message _scan_ble _inspect_ble _connect_ble _send_ble
  _ble_notification_handler run_coro loop_step future_result
  _scan_ble_async _inspect_ble_async _connect_ble_async _send_ble_async
  _disconnect_ble_async _ble_connected _ble_disconnected _show_device_info
  run_callback mainloop_turn show_about on_closing : bodies.

Ltac respects_walk_bodies :=
  repeat first [ progress autounfold with methods
               | progress autounfold with bodies
               | respects_step ].

Lemma loop_run_files (turns : list Bleak) :
  respects same_files (loop_run turns).
Proof.
  induction turns as [| o os IH]; simpl; respects_step; [| exact IH].
  respects_walk_bodies; reflexivity.
Qed.

Lemma read_serial_messages_files (polls : list SerialPoll) :
  respects same_files (read_serial_messages polls).
Proof.
  induction polls as [| p ps IH]; simpl; [respects_step |].
  respects_walk_bodies; try exact IH; reflexivity.
Qed.

Lemma run_thread_files (t : Thread) (env : Env) :
  respects same_files (run_thread t env).
Proof.
  destruct t; simpl;
    [ apply loop_run_files | apply read_serial_messages_files | .. ];
    respects_walk_bodies; try apply loop_run_files; reflexivity.
Qed.

Lemma same_files_elim {A} (m : M A) :
  respects same_files m -> forall w, files (exec m w) = files w.
Proof. intros H w. apply H. Qed.

(** C6, amended. No operation but Save Messages changes the storage.
    Save Messages with no file chosen changes nothing; with a file
    chosen it writes the header and the current logs there and changes
    nothing else but the text of the status bar; when the file cannot be
    opened it shows the error and changes nothing else; when a write
    fails the file keeps what was written before and the error is
    shown. *)
Theorem storage_written_only_by_save (op : Op) (w : World) :
  match op with
  | Op_save_messages filename io =>
      let w' := exec (save_messages filename io) w in
      if truthy filename then
        match io with
        | IoOk => w' = saved filename (List.concat (log_chunks w)) w
        | IoOpenFails e => w' = set_dialogs (dialogs w ++ [save_error e]) w
        | IoWriteFails n e =>
            if n <? List.length (log_chunks w) then
              w' = set_dialogs (dialogs w ++ [save_error e])
                     (set_files
                        (<[filename := List.concat (take n (log_chunks w))]>
                           (files w)) w)
            else w' = saved filename (List.concat (log_chunks w)) w
        end
      else w' = w
  | _ => files (exec (run_op op) w) = files w
  end.
Proof.
  destruct op; cbn [run_op];
    try (apply same_files_elim;
         first [ apply run_thread_files
               | respects_walk_bodies; reflexivity ]).
  unfold save_messages.
  destruct filename as [| c filename']; [done |].
  set (filename := c :: filename').
  simpl truthy. cbv iota. unfold when.
  destruct io as [| e | n e]; unfold exec, try_except, bind, gets, write_file,
    update_status, modify_tk, modify, raise, messagebox, ret; cbn beta iota.
  - reflexivity.
  - reflexivity.
  - destruct (Nat.ltb_spec n (List.length (log_chunks w))) as [Hn | Hn];
      cbn beta iota.
    + reflexivity.
    + unfold saved. rewrite take_ge by done. reflexivity.
Qed.

(** *** The device list *)

Lemma classify_from (devices : list Device) (e o : list (Device * str)) :
  fold_left
    (fun '(esp32_devices, other_devices) device =>
       if is_esp32_name (display_name device)
       then (esp32_devices ++ [(device, display_text device)], other_devices)
       else (esp32_devices, other_devices ++ [(device, display_text device)]))
    devices (e, o)
  = (e ++ (tag <$> List.filter is_esp32 devices),
     o ++ (tag <$> List.filter (fun d => negb (is_esp32 d)) devices)).
Proof.
  revert e o. induction devices as [| d ds IH]; intros e o; simpl.
  - by rewrite !app_nil_r.
  - change (is_esp32_name (display_name d)) with (is_esp32 d).
    destruct (is_esp32 d); simpl; rewrite IH; by rewrite <- !app_assoc.
Qed.

Lemma classify_spec (devices : list Device) :
  classify devices =
  (tag <$> List.filter is_esp32 devices,
   tag <$> List.filter (fun d => negb (is_esp32 d)) devices).
Proof. unfold classify. by rewrite classify_from. Qed.

Lemma agrees_insert index_map ents d :
  agrees index_map ents ->
  agrees (<[List.length ents := d]> index_map) (ents ++ [Some d]).
Proof.
  intros H i. destruct (decide (i = List.length ents)) as [-> | Hne].
  - rewrite lookup_insert_eq, lookup_app_r, Nat.sub_diag by lia. done.
  - rewrite lookup_insert_ne by done. rewrite H.
    destruct (decide (i < List.length ents)).
    + by rewrite lookup_app_l.
    + rewrite !lookup_ge_None_2; [done | | lia].
      rewrite length_app. simpl. lia.
Qed.

Lemma agrees_skip index_map ents :
  agrees index_map ents -> agrees index_map (ents ++ [None]).
Proof.
  intros H i. rewrite H. destruct (decide (i < List.length ents)).
  - by rewrite lookup_app_l.
  - rewrite lookup_ge_None_2 by lia.
    destruct (decide (i = List.length ents)) as [-> | Hne].
    + by rewrite lookup_app_r, Nat.sub_diag by lia.
    + rewrite lookup_ge_None_2; [done |]. rewrite length_app. simpl. lia.
Qed.

Lemma add_rows_spec (prefix : str) (ds : list Device) rows index_map ents :
  List.length rows = List.length ents ->
  agrees index_map ents ->
  exists index_map',
    add_rows prefix (tag <$> ds) (rows, index_map, List.length ents) =
      (rows ++ ((fun d => prefix ++ display_text d) <$> ds), index_map',
       List.length (ents ++ (Some <$> ds))) /\
    agrees index_map' (ents ++ (Some <$> ds)).
Proof.
  revert rows index_map ents.
  induction ds as [| d ds IH]; intros rows index_map ents Hlen Hag.
  - exists index_map. simpl. by rewrite !app_nil_r.
  - destruct (IH (rows ++ [prefix ++ display_text d])
                 (<[List.length ents := d]> index_map) (ents ++ [Some d]))
      as (m' & Heq & Hag').
    + rewrite !length_app. simpl. lia.
    + by apply agrees_insert.
    + exists m'. split; [| by rewrite <- app_assoc in Hag'].
      unfold add_rows in *. simpl.
      replace (S (List.length ents)) with (List.length (ents ++ [Some d]))
        by (rewrite length_app; simpl; lia).
      etrans; [exact Heq |].
      by rewrite <- (app_assoc rows), <- (app_assoc ents).
Qed.

Lemma esp32_rows (l : list Device) :
  (fun d => esp32_prefix ++ display_text d) <$> List.filter is_esp32 l =
  row_of <$> (Some <$> List.filter is_esp32 l).
Proof.
  induction l as [| d l IH]; [done |]. simpl.
  destruct (is_esp32 d) eqn:Hd; [| done].
  simpl. rewrite Hd. by f_equal.
Qed.

Lemma other_rows (l : list Device) :
  (fun d => other_prefix ++ display_text d) <$>
    List.filter (fun d => negb (is_esp32 d)) l =
  row_of <$> (Some <$> List.filter (fun d => negb (is_esp32 d)) l).
Proof.
  induction l as [| d l IH]; [done |]. simpl.
  destruct (is_esp32 d) eqn:Hd; [done |].
  simpl. rewrite Hd. by f_equal.
Qed.

Lemma agrees_nil : agrees ∅ [].
Proof. intros i. by rewrite lookup_empty. Qed.

Lemma fill_listbox_spec (devices : list Device) :
  exists index_map,
    fill_listbox devices =
      (row_of <$> entries devices, index_map, List.length (entries devices)) /\
    agrees index_map (entries devices).
Proof.
  unfold fill_listbox, entries. rewrite classify_spec.
  set (E := List.filter is_esp32 devices).
  set (O := List.filter (fun d => negb (is_esp32 d)) devices).
  destruct (add_rows_spec esp32_prefix E [] ∅ [] eq_refl agrees_nil)
    as (m1 & Heq1 & Hag1).
  change (List.length (@nil (option Device))) with 0 in Heq1.
  rewrite !app_nil_l in Heq1. rewrite app_nil_l in Hag1.
  rewrite Heq1. clear Heq1.
  assert (exists sep : list (option Device),
    sep = match E, O with _ :: _, _ :: _ => [None] | _, _ => [] end /\
    add_separator (tag <$> E) (tag <$> O)
      ((fun d => esp32_prefix ++ display_text d) <$> E, m1,
       List.length (Some <$> E)) =
      (((fun d => esp32_prefix ++ display_text d) <$> E) ++ (row_of <$> sep),
       m1, List.length ((Some <$> E) ++ sep)) /\
    agrees m1 ((Some <$> E) ++ sep)) as (sep & Hsep & Heq2 & Hag2).
  { destruct E as [| e E'], O as [| o O']; eexists; (split; [reflexivity |]);
      simpl; rewrite ?app_nil_r; try done.
    split; [| by apply (agrees_skip m1 (Some e :: (Some <$> E')))].
    rewrite length_app. simpl. do 2 f_equal. lia. }
  rewrite <- Hsep.
  destruct (add_rows_spec other_prefix O
              (((fun d => esp32_prefix ++ display_text d) <$> E) ++
               (row_of <$> sep)) m1 ((Some <$> E) ++ sep))
    as (m2 & Heq3 & Hag3); [| exact Hag2 |].
  { rewrite !length_app, !length_fmap. done. }
  exists m2. split; [| by rewrite <- app_assoc in Hag3].
  etrans; [exact (f_equal (add_rows other_prefix (tag <$> O)) Heq2) |].
  etrans; [exact Heq3 |].
  rewrite !fmap_app, <- (app_assoc (Some <$> E)). unfold E, O.
  by rewrite esp32_rows, other_rows, <- app_assoc.
Qed.

Lemma device_row_not_separator (d : Device) : row_of (Some d) <> separator.
Proof.
  unfold row_of, esp32_prefix, other_prefix, separator.
  vm_compute (lit _). destruct (is_esp32 d); discriminate.
Qed.

Lemma listed_take index_map ents n :
  agrees index_map ents -> n <= List.length ents ->
  listed index_map n = omap id (take n ents).
Proof.
  intros Hag. unfold listed. induction n as [| n IH]; intros Hn.
  - by rewrite take_0.
  - destruct (lookup_lt_is_Some_2 ents n) as [x Hx]; [lia |].
    rewrite seq_S, omap_app, (take_S_r _ _ x), omap_app, IH by (done || lia).
    f_equal. simpl. by rewrite Hag, Hx.
Qed.

Lemma listed_entries (devices : list Device) index_map :
  agrees index_map (entries devices) ->
  listed index_map (List.length (entries devices)) =
  List.filter is_esp32 devices ++
  List.filter (fun d => negb (is_esp32 d)) devices.
Proof.
  intros Hag. rewrite (listed_take _ _ _ Hag), take_ge by done.
  unfold entries. rewrite !omap_app.
  assert (forall l : list Device, omap id (Some <$> l) = l) as Hsome.
  { induction l as [| x l IH]; [done |]. simpl. f_equal. exact IH. }
  rewrite !Hsome.
  by destruct (List.filter is_esp32 devices),
              (List.filter (fun d => negb (is_esp32 d)) devices).
Qed.

Lemma partition_permutation {A} (f : A -> bool) (l : list A) :
  List.filter f l ++ List.filter (fun x => negb (f x)) l ≡ₚ l.
Proof.
  induction l as [| x l IH]; [done |]. simpl. destruct (f x); simpl.
  - by rewrite IH.
  - by rewrite <- Permutation_middle, IH.
Qed.

Lemma entries_lookup_esp32 (devices : list Device) (i : nat) (d : Device) :
  entries devices !! i = Some (Some d) ->
  is_esp32 d = true <-> i < List.length (List.filter is_esp32 devices).
Proof.
  unfold entries.
  set (E := List.filter is_esp32 devices).
  set (O := List.filter (fun d => negb (is_esp32 d)) devices).
  intros Hi. destruct (decide (i < List.length E)) as [Hlt | Hge].
  - rewrite lookup_app_l in Hi by by rewrite length_fmap.
    apply list_elem_of_lookup_2, list_elem_of_fmap in Hi
      as (d' & [= <-] & Hd).
    apply list_elem_of_In, filter_In in Hd as [_ Hd]. done.
  - rewrite lookup_app_r in Hi by (rewrite length_fmap; lia).
    apply list_elem_of_lookup_2, elem_of_app in Hi as [Hi | Hi].
    + destruct E, O; try by apply elem_of_nil in Hi.
      by apply list_elem_of_singleton in Hi.
    + apply list_elem_of_fmap in Hi as (d' & [= <-] & Hd).
      apply list_elem_of_In, filter_In in Hd as [_ Hd].
      apply negb_true_iff in Hd. rewrite Hd. split; [done | lia].
Qed.

Lemma agrees_lookup index_map ents i (d : Device) :
  agrees index_map ents -> index_map !! i = Some d ->
  ents !! i = Some (Some d).
Proof.
  intros Hag Hi. rewrite Hag in Hi.
  destruct (ents !! i) as [[d' |] |]; simpl in Hi; congruence.
Qed.

(** C8. After [_update_device_list], an index is in [device_index_map]
    exactly when the listbox has a row there that is not the separator;
    the separator row has no device; the devices met along the rows are
    the scanned devices, each once; and every device whose name passes
    the XIAO/ESP32 test sits above every device whose name does not. *)
Theorem device_index_map_matches_listbox (devices : list Device) (w : World) :
  let w' := exec (_update_device_list devices) w in
  let rows := device_listbox (tk w') in
  exists index_map,
    device_index_map (app w') = Some index_map /\
    (forall i, is_Some (index_map !! i) <->
               exists row, rows !! i = Some row /\ row <> separator) /\
    (forall i, rows !! i = Some separator -> index_map !! i = None) /\
    listed index_map (List.length rows) ≡ₚ devices /\
    (forall i j d1 d2,
        index_map !! i = Some d1 -> index_map !! j = Some d2 ->
        is_esp32 d1 = true -> is_esp32 d2 = false -> i < j).
Proof.
  destruct (fill_listbox_spec devices) as (m & Hfill & Hag).
  unfold _update_device_list. rewrite Hfill.
  cbn -[lit listed entries row_of separator]. exists m. split; [done |].
  assert (forall i, is_Some (m !! i) <->
            exists row, (row_of <$> entries devices) !! i = Some row /\
                        row <> separator) as Hrows.
  { intros i. rewrite Hag, list_lookup_fmap.
    destruct (entries devices !! i) as [[d |] |]; simpl; split.
    - intros _. eexists. split; [done | apply device_row_not_separator].
    - by eauto.
    - by intros [? ?].
    - by intros (row & [= <-] & Hne).
    - by intros [? ?].
    - by intros (row & ? & _). }
  split; [exact Hrows |]. split; [| split].
  - intros i Hi. destruct (m !! i) as [d |] eqn:Hm; [| done].
    destruct (proj1 (Hrows i)) as (row & Hrow & Hne); [by eauto |].
    congruence.
  - rewrite length_fmap, (listed_entries _ _ Hag).
    apply partition_permutation.
  - intros i j d1 d2 Hi Hj H1 H2.
    apply (agrees_lookup _ _ _ _ Hag) in Hi, Hj.
    apply entries_lookup_esp32 in Hi, Hj.
    apply Hi in H1.
    assert (~ j < List.length (List.filter is_esp32 devices))
      by (intros Hlt; apply Hj in Hlt; congruence).
    lia.
Qed.

(** *** Connecting over BLE *)



Lemma new_ble_calls_app (w w' : World) (l : list (LoopId * BleCall)) :
  ble_calls w' = ble_calls w ++ l -> new_ble_calls w w' = l.
Proof. intros H. unfold new_ble_calls. by rewrite H, drop_app_length. Qed.

Ltac unfold_monad :=
  unfold exec, outcome, try_except, try_finally, bind, when, ble_call,
    serial_call, modify_app, modify_tk, root_after, messagebox, print,
    start_thread, update_status, gets, modify, lift, raise, ret, capture.

Ltac run_method :=
  unfold_monad; cbn -[lit truthy strip];
  unfold_monad; cbn -[lit truthy strip].


(** *** Notifications *)

(** C5. Once the connection is made and the target service holds the
    target characteristic, [_connect_ble] asks bleak for the
    notifications of that characteristic.  Each value the handler
    receives is decoded, stripped and queued for the GUI thread as one
    BLE message, and the queued closure appends one line to the BLE
    message display. *)
Theorem notifications_are_subscribed_and_logged :
  (forall device o w,
      bk_connect o = Ok tt ->
      find_service (bk_services o) = (true, true) ->
      (BridgeLoop, BleStartNotify (dev_address device) CHARACTERISTIC_UUID)
        ∈ new_ble_calls w (exec (_connect_ble device o) w)) /\
  (forall data w,
      exec (_ble_notification_handler data) w =
      set_after_queue
        (after_queue w ++
           [Cb_add_ble_message
              (lit "[BLE] " ++ strip (decode_utf8_ignore data))
              (lit "received")]) w) /\
  (forall message w log,
      ble_messages (tk w) = Some log ->
      ble_messages
        (tk (exec (run_callback (Cb_add_ble_message message (lit "received"))) w))
      = Some (log ++
              full_message (if timestamp_var (tk w) then now_hms w else [])
                           message (lit "received"))).
Proof.
  split; [| split].
  - intros device o w Hc Hf. unfold _connect_ble. run_method.
    rewrite Hc, Hf.
    destruct (bk_start_notify o) as [[] | e],
      (bk_disconnect_cleanup o) as [[] | e'];
      cbn -[lit];
      (erewrite new_ble_calls_app; [| cbn; rewrite <- ?app_assoc; reflexivity]);
      set_solver.
  - intros data w. unfold _ble_notification_handler. by run_method.
  - intros message w log Hlog. unfold run_callback, add_ble_message.
    run_method. by rewrite Hlog.
Qed.

(** *** Sending *)

Lemma truthy_true (s : str) : truthy s = true <-> s <> [].
Proof. by destruct s. Qed.

(** C10, amended. What is sent is the input with the surrounding
    whitespace stripped.  Serial: an input that strips to nothing
    changes nothing, and shows no dialog whether connected or not; any
    other input, when not connected, sends nothing, shows the warning
    and clears the field; when connected it is written, followed by a
    newline, and the field is cleared.  BLE: when not connected nothing
    is sent, the warning is shown and nothing else changes; when
    connected, an input that strips to nothing changes nothing, and any
    other input is handed to a sender thread and the field is cleared;
    the sender writes the stripped input to the characteristic. *)
Theorem send_strips_and_guards (w : World) (written : Res unit) :
  let command := strip (serial_command_var (tk w)) in
  let message := strip (ble_command_var (tk w)) in
  (command = [] -> exec (send_serial_command written) w = w) /\
  (command <> [] -> is_connected_serial (app w) = false ->
     exec (send_serial_command written) w =
     set_tk (set_serial_command_var [] (tk w))
            (set_dialogs (dialogs w ++ [serial_warning]) w)) /\
  (command <> [] -> is_connected_serial (app w) = true ->
     forall s, serial_connection (app w) = Some s ->
     let w' := exec (send_serial_command written) w in
     serial_calls w' =
       serial_calls w ++ [SerWrite (ser_port s) (encode_utf8 (command ++ nl))] /\
     serial_command_var (tk w') = []) /\
  (is_connected_ble (app w) = false ->
     exec send_ble_message w = set_dialogs (dialogs w ++ [ble_warning]) w) /\
  (is_connected_ble (app w) = true -> message = [] ->
     exec send_ble_message w = w) /\
  (is_connected_ble (app w) = true -> message <> [] ->
     exec send_ble_message w =
     set_tk (set_ble_command_var [] (tk w))
            (set_threads (threads w ++ [Th_send_ble_async message]) w)) /\
  (forall text o c, ble_client (app w) = Some c ->
     ble_calls (exec (_send_ble text o) w) =
     ble_calls w ++
       [(BridgeLoop,
         BleWrite (cl_address c) CHARACTERISTIC_UUID (encode_utf8 text))]).
Proof.
  intros command message. subst command message. repeat split.
  - intros H. unfold send_serial_command. run_method. by rewrite H.
  - intros H%truthy_true Hc. unfold send_serial_command,
      send_serial_command_direct. run_method.
    rewrite H. cbn -[lit]. by rewrite Hc.
  - apply truthy_true in H.
    unfold send_serial_command, send_serial_command_direct,
      add_serial_message. run_method.
    rewrite H. cbn -[lit]. rewrite H0. cbn -[lit]. rewrite H1.
    by destruct written as [[] | e].
  - apply truthy_true in H.
    unfold send_serial_command, send_serial_command_direct,
      add_serial_message. run_method.
    rewrite H. cbn -[lit]. rewrite H0. cbn -[lit]. rewrite H1.
    by destruct written as [[] | e].
  - intros Hc. unfold send_ble_message. run_method. by rewrite Hc.
  - intros Hc H. unfold send_ble_message. run_method.
    rewrite Hc. cbn -[lit truthy strip]. by rewrite H.
  - intros Hc H%truthy_true. unfold send_ble_message. run_method.
    rewrite Hc. cbn -[lit truthy strip]. by rewrite H.
  - intros text o c Hc. unfold _send_ble. run_method. rewrite Hc.
    by destruct (bk_write o).
Qed.

(** *** The bridge *)

#[local] Instance same_futures_made_preorder : PreOrder same_futures_made.
Proof.
  split; unfold same_futures_made; [done |].
  intros w1 w2 w3 [? ?] [? ?]. split; congruence.
Qed.

Lemma loop_run_same_futures_made (turns : list Bleak) :
  respects same_futures_made (loop_run turns).
Proof.
  induction turns as [| o os IH]; simpl; respects_step; [| exact IH].
  unfold loop_step, run_coro.
  respects_walk_bodies; by split.
Qed.

#[local] Instance no_new_loop_thread_preorder : PreOrder no_new_loop_thread.
Proof.
  split.
  - intros w. exists []. split; [by rewrite app_nil_r | apply not_elem_of_nil].
  - intros w1 w2 w3 (t1 & H1 & Hn1) (t2 & H2 & Hn2). exists (t1 ++ t2).
    split; [by rewrite H2, H1, <- app_assoc |].
    by intros [? | ?]%elem_of_app.
Qed.

Ltac no_new_loop_thread_frame :=
  first [ by exists []; split; [by rewrite app_nil_r | apply not_elem_of_nil]
        | by eexists; split;
            [ reflexivity
            | let H := fresh in
              intros H; apply list_elem_of_singleton in H; discriminate H ] ].

Lemma loop_run_no_new_loop_thread (turns : list Bleak) :
  respects no_new_loop_thread (loop_run turns).
Proof.
  induction turns as [| o os IH]; simpl; respects_step; [| exact IH].
  respects_walk_bodies; no_new_loop_thread_frame.
Qed.

Lemma read_serial_no_new_loop_thread (polls : list SerialPoll) :
  respects no_new_loop_thread (read_serial_messages polls).
Proof.
  induction polls as [| p ps IH]; simpl; [respects_step |].
  respects_walk_bodies; try exact IH; no_new_loop_thread_frame.
Qed.

Lemma run_op_no_new_loop_thread (op : Op) :
  respects no_new_loop_thread (run_op op).
Proof.
  destruct op; cbn [run_op];
    try (respects_walk_bodies; no_new_loop_thread_frame).
  - unfold save_messages, write_file.
    respects_walk_bodies; no_new_loop_thread_frame.
  - destruct t; cbn [run_thread];
      [ apply loop_run_no_new_loop_thread
      | apply read_serial_no_new_loop_thread | .. ];
      respects_walk_bodies; try apply loop_run_no_new_loop_thread;
      no_new_loop_thread_frame.
Qed.

#[local] Instance same_manager_preorder : PreOrder same_manager.
Proof. split; unfold same_manager; [done | congruence]. Qed.

Lemma run_coro_same_manager (c : Coro) (o : Bleak) :
  respects same_manager (run_coro c o).
Proof.
  destruct c; unfold run_coro, _scan_ble, _inspect_ble, _connect_ble, _send_ble;
    respects_walk; reflexivity.
Qed.

(** A turn of the loop runs the oldest coroutine of the queue, once: it
    leaves the queue and its future is completed. *)
Lemma loop_step_takes_oldest (o : Bleak) (w : World) m l fut c rest :
  asyncio_manager (app w) = Some m -> am_loop m = Some l ->
  loop_running l = true -> loop_closed l = false ->
  loop_ready l = (fut, c) :: rest ->
  let w' := exec (loop_step o) w in
  bridge_queue w' = rest /\ is_Some (futures w' !! fut).
Proof.
  intros Hm Hl Hr Hc Hq. unfold loop_step, exec, bind, gets.
  rewrite Hm, Hl, Hr, Hc, Hq. cbn -[lit]. unfold capture, bind, modify_app.
  unfold modify at 1. cbn -[lit].
  set (w1 := set_app _ w).
  pose proof (run_coro_same_manager c o w1) as Hsame.
  unfold exec, same_manager in Hsame.
  destruct (run_coro c o w1) as [r w2]. cbn -[lit] in *.
  unfold bridge_queue. cbn -[lit]. rewrite Hsame. cbn -[lit].
  split; [done |]. by rewrite lookup_insert_eq.
Qed.

(** A submission joins the queue at its end, with a new future. *)
Lemma run_async_open (c : Coro) (w : World) m l :
  asyncio_manager (app w) = Some m -> am_loop m = Some l ->
  loop_closed l = false ->
  run_async c w =
  (Ok (next_future w),
   set_app (set_asyncio_manager
              (Some (set_am_loop
                 (Some (set_loop_ready (loop_ready l ++ [(next_future w, c)]) l))
                 m)) (app w))
           (set_next_future (S (next_future w)) w)).
Proof.
  intros Hm Hl Hc. unfold run_async. run_method.
  rewrite Hm, Hl, Hc. reflexivity.
Qed.

Lemma future_result_made (fut : nat) (t : Z) (turns : list Bleak) (w : World) :
  let w' := exec (future_result fut t turns) w in
  next_future w' = next_future w /\ waits w' = waits w ++ [(fut, t)].
Proof.
  unfold future_result, exec, bind.
  unfold modify at 1. cbn -[lit].
  set (w1 := set_waits (waits w ++ [(fut, t)]) w).
  destruct (loop_run_same_futures_made turns w1) as [Hn Hw].
  unfold exec in Hn, Hw.
  destruct (loop_run turns w1) as [[[] | e] w2]; cbn -[lit] in *; [| done].
  unfold gets. cbn -[lit].
  by destruct (futures w2 !! fut) as [[v | e] |].
Qed.

(** C1, at the failing input. [_disconnect_ble_async] does not go
    through the bridge: the loop of the [AsyncioManager], its queue and
    the futures are as before and no future is awaited; the
    disconnection runs on a loop made for the occasion; an error of the
    disconnection is printed and never reaches the GUI thread, which is
    only told that the device is disconnected. *)
Theorem disconnect_runs_outside_the_bridge (disconnected : Res unit) (w : World) :
  let w' := exec (_disconnect_ble_async disconnected) w in
  bridge_untouched w w' /\
  ble_calls w' =
    ble_calls w ++
    match ble_client (app w) with
    | Some c => [(PrivateLoop (private_loops w), BleDisconnect (cl_address c))]
    | None => []
    end /\
  after_queue w' = after_queue w ++ [Cb_ble_disconnected] /\
  dialogs w' = dialogs w /\
  stdout w' =
    stdout w ++
    match ble_client (app w), disconnected with
    | Some _, Raise e => [lit "BLE disconnect error: " ++ str_of_exn e]
    | _, _ => []
    end.
Proof.
  unfold _disconnect_ble_async, bridge_untouched. run_method.
  destruct (ble_client (app w)) as [c |], disconnected as [[] | e];
    cbn -[lit]; by rewrite ?app_nil_r.
Qed.

(** C2, amended. Building the application with bleak starts one thread
    on the loop of the bridge, which then runs and is not closed, and no
    operation starts another.  Every cross-thread call submits its
    coroutine to that loop and waits once for the future it got, with a
    timeout fixed per kind of call: 10 seconds for a scan, an inspection
    and a connection, 5 seconds for a send. *)
Theorem bridge_calls_submit_and_wait (w : World) (m : AsyncioManager) (l : Loop) :
  asyncio_manager (app w) = Some m -> am_loop m = Some l ->
  loop_closed l = false ->
  (forall w0 ports, BLEAK_AVAILABLE w0 = true ->
     let w1 := exec (ESP32S3_GUI_init ports) w0 in
     threads w1 = threads w0 ++ [Th_run_loop] /\
     exists m1 l1, asyncio_manager (app w1) = Some m1 /\
                   am_loop m1 = Some l1 /\ am_thread m1 = Some Th_run_loop /\
                   loop_running l1 = true /\ loop_closed l1 = false) /\
  (forall op w0, no_new_loop_thread w0 (exec (run_op op) w0)) /\
  (forall t c timeout env, bridge_call t = Some (c, timeout) ->
     let w' := exec (run_thread t env) w in
     next_future w' = S (next_future w) /\
     waits w' = waits w ++ [(next_future w, timeout)] /\
     (env_turns env = [] ->
      bridge_queue w' = bridge_queue w ++ [(next_future w, c)])).
Proof.
  intros Hm Hl Hc. split; [| split].
  - intros w0 ports Hb.
    unfold ESP32S3_GUI_init, AsyncioManager_init, setup_gui, setup_serial_tab,
      setup_ble_tab, setup_settings_tab, setup_status_bar,
      refresh_serial_ports.
    run_method. rewrite Hb. cbn -[lit]. rewrite Hb. cbn -[lit].
    destruct ports as [| p0 ports']; cbn -[lit];
      [| destruct (bool_decide _); cbn -[lit]];
      (split; [done |]); eexists _, _; by repeat split.
  - intros op w0. apply run_op_no_new_loop_thread.
  - assert (forall c timeout turns (k : Value -> M unit) h,
      (forall v w1, next_future (exec (k v) w1) = next_future w1 /\
                    waits (exec (k v) w1) = waits w1 /\
                    bridge_queue (exec (k v) w1) = bridge_queue w1) ->
      (forall e w1, next_future (exec (h e) w1) = next_future w1 /\
                    waits (exec (h e) w1) = waits w1 /\
                    bridge_queue (exec (h e) w1) = bridge_queue w1) ->
      let w' := exec (try_except
                        (let* future := run_async c in
                         let* v := future_result future timeout turns in
                         k v) h) w in
      next_future w' = S (next_future w) /\
      waits w' = waits w ++ [(next_future w, timeout)] /\
      (turns = [] -> bridge_queue w' = bridge_queue w ++ [(next_future w, c)]))
      as Hcall.
    { intros c timeout turns k h Hk Hh.
      unfold exec, try_except, bind. rewrite (run_async_open c w m l) by done.
      set (w1 := set_app _ _).
      assert (bridge_queue w1 = bridge_queue w ++ [(next_future w, c)]) as Hq.
      { unfold bridge_queue, w1. cbn. by rewrite Hm; cbn; rewrite Hl. }
      destruct (future_result_made (next_future w) timeout turns w1)
        as [Hn Hw].
      assert (turns = [] ->
              bridge_queue (exec (future_result (next_future w) timeout turns) w1)
              = bridge_queue w1) as Hq'.
      { intros ->. unfold future_result. run_method.
        by destruct (futures w !! next_future w) as [[v | e] |]. }
      unfold exec in Hn, Hw, Hq'.
      destruct (future_result (next_future w) timeout turns w1)
        as [[v | e] w2]; cbn -[lit] in *.
      - destruct (Hk v w2) as (Hk1 & Hk2 & Hk3). unfold exec in Hk1, Hk2, Hk3.
        destruct (k v w2) as [[[] | e] w3]; cbn -[lit] in *.
        + repeat split; [congruence | congruence |].
          intros Ht. rewrite Hk3, Hq'; done.
        + destruct (Hh e w3) as (Hh1 & Hh2 & Hh3).
          unfold exec in Hh1, Hh2, Hh3.
          repeat split; [congruence | congruence |].
          intros Ht. rewrite Hh3, Hk3, Hq'; done.
      - destruct (Hh e w2) as (Hh1 & Hh2 & Hh3).
        unfold exec in Hh1, Hh2, Hh3.
        repeat split; [congruence | congruence |].
        intros Ht. rewrite Hh3, Hq'; done. }
    assert (forall a b : M unit,
              exec (let* missing := no_manager in
                    if missing : bool then a else b) w = exec b w) as Hno.
    { intros a b. unfold no_manager. unfold exec, bind, gets, ret.
      by rewrite Hm. }
    intros t c timeout env Ht.
    destruct t; simplify_eq/=;
      unfold _scan_ble_async, _inspect_ble_async, _connect_ble_async,
        _send_ble_async;
      rewrite Hno; apply Hcall; intros; by run_method.
Qed.

(** *** Errors of the libraries *)



(** *** Transports and scripts *)

(** C7, amended. The notebook of the application offers USB serial and,
    when bleak can be imported, BLE; without bleak it offers USB serial
    alone.  The scanner script makes one call into bleak, a discovery,
    and reports whether a device name passes its test; the connection
    test opens with a connection to its fixed address and all its calls
    address that peripheral, on the loop of the script. *)
Theorem transports_and_scripts :
  (forall ports w,
      transports (exec (ESP32S3_GUI_init ports) w) =
      transports w ++
      (if BLEAK_AVAILABLE w then [UsbSerial; Ble] else [UsbSerial])) /\
  (forall discovered w,
      new_ble_calls w (exec (scan_for_devices discovered) w) =
      [(script_loop, BleDiscover)]) /\
  (forall devices w,
      outcome (scan_for_devices (Ok devices)) w =
      Ok (existsb scanner_is_target devices)) /\
  (forall o w,
      let calls := new_ble_calls w (exec (test_esp32_connection o) w) in
      calls !! 0 = Some (script_loop, BleConnect ESP32_ADDRESS) /\
      Forall (fun '(lp, c) =>
                lp = script_loop /\ call_address c = Some ESP32_ADDRESS)
             calls).
Proof.
  split; [| split; [| split]].
  - intros ports w.
    unfold ESP32S3_GUI_init, AsyncioManager_init, setup_gui, setup_serial_tab,
      setup_ble_tab, setup_settings_tab, setup_status_bar,
      refresh_serial_ports, transports.
    run_method.
    destruct (BLEAK_AVAILABLE w) eqn:Hb; cbn -[lit]; rewrite ?Hb; cbn -[lit];
      (destruct ports as [| p0 ports']; cbn -[lit];
       [| destruct (bool_decide _); cbn -[lit]]);
      rewrite <- ?app_assoc, !omap_app; by vm_compute (omap _ [_]).
  - intros discovered w. unfold scan_for_devices. run_method.
    apply new_ble_calls_app.
    by destruct discovered as [[| d ds] | e].
  - intros devices w. unfold scan_for_devices. run_method.
    by destruct devices.
  - intros o w calls. subst calls. unfold test_esp32_connection, tester_call.
    destruct o as [cn ic rn rd wr rb dc]. run_method.
    destruct cn as [[] | e1], ic, rn as [? | e2], rd as [? | e3],
      wr as [[] | e4], rb as [? | e5], dc as [[] | e6];
      cbn -[lit];
      (erewrite new_ble_calls_app; [| cbn; rewrite <- ?app_assoc; reflexivity]);
      (split; [done | by repeat constructor]).
Qed.

(* =================================================================== *)
(** ** Further properties of the program *)
(* =================================================================== *)

(** Run a method without unfolding the printing of numbers. *)
Ltac calm := cbn -[lit truthy strip pretty of_nat].

Ltac run_calm := unfold_monad; calm; unfold_monad; calm.

Ltac run_calm_with known := run_calm; repeat (progress (known; calm)).

(** Unfold the operations of the monad and reduce only what they lay
    bare, leaving every other definition folded. *)
Ltac plumb := unfold_monad; cbv beta iota.

(** *** USB serial *)

(** X1. After a refresh the combobox lists the ports found; when some port
    was found the selected port is one of them, and a selection that is
    still listed is kept. *)
Theorem refresh_selects_a_listed_port (ports : list str) (w : World) :
  let w' := exec (refresh_serial_ports ports) w in
  serial_port_combo (tk w') = ports /\
  (ports <> [] -> serial_port_var (tk w') ∈ ports) /\
  (serial_port_var (tk w) ∈ ports \/ ports = [] ->
   serial_port_var (tk w') = serial_port_var (tk w)) /\
  status_var (tk w') =
    lit "Found " ++ of_nat (List.length ports) ++ lit " serial port(s)" /\
  app w' = app w /\ dialogs w' = dialogs w.
Proof.
  unfold refresh_serial_ports. run_method.
  destruct ports as [| p0 ports']; cbn -[lit].
  - repeat split; try done.
  - destruct (bool_decide_reflect (serial_port_var (tk w) ∈ p0 :: ports'))
      as [Hin | Hout]; cbn -[lit]; repeat split; try done.
    + intros _. left.
    + intros [Hin | [=]]. done.
Qed.

(** X2. A baud rate that is not an integer stops [connect_serial] before the
    port is opened: no call into pyserial, no reader thread, the
    attributes unchanged, and the error of [int()] in a dialog. *)
Theorem connect_serial_needs_integer_baud
  (opened : Res unit) (e : exn) (w : World) :
  int_of_str (baud_var (tk w)) = Raise e ->
  let w' := exec (connect_serial opened) w in
  serial_calls w' = serial_calls w /\ threads w' = threads w /\
  app w' = app w /\
  dialogs w' = dialogs w ++ [connection_error (serial_port_var (tk w)) e] /\
  status_var (tk w') = lit "Connection failed".
Proof.
  intros He. unfold connect_serial. plumb. rewrite He. plumb. calm.
  unfold connection_error, error_dialog. repeat split.
Qed.

(** X3. Connect then disconnect: the port is opened once and closed once, the
    application is disconnected again with no connection object, the
    reader is told to stop, and the display got the two lines of the GUI. *)
Theorem serial_connect_disconnect_round_trip
  (opened' : Res unit) (baud : Z) (w : World) :
  int_of_str (baud_var (tk w)) = Ok baud ->
  is_connected_serial (app w) = false ->
  let port := serial_port_var (tk w) in
  let w1 := exec (toggle_serial_connection (Ok tt)) w in
  let w2 := exec (toggle_serial_connection opened') w1 in
  is_connected_serial (app w1) = true /\
  serial_connection (app w1) = Some {| ser_port := port; ser_baud := baud |} /\
  threads w1 = threads w ++ [Th_read_serial_messages] /\
  is_connected_serial (app w2) = false /\
  serial_connection (app w2) = None /\
  stop_threads (app w2) = true /\
  serial_calls w2 = serial_calls w ++ [SerOpen port baud; SerClose port] /\
  serial_connect_btn (tk w2) = lit "Connect" /\
  message_count (app w2) = 2 + message_count (app w) /\
  dialogs w2 = dialogs w.
Proof.
  intros Hb Hc port w1 w2. subst port.
  eassert (w1 = _) as Hw1.
  { subst w1. unfold toggle_serial_connection, connect_serial,
      add_serial_message, update_connection_status.
    run_calm. rewrite Hc. calm. rewrite Hb. calm. reflexivity. }
  clearbody w1. subst w1.
  eassert (w2 = _) as Hw2.
  { subst w2. unfold toggle_serial_connection, disconnect_serial,
      add_serial_message, update_connection_status.
    run_calm. reflexivity. }
  clearbody w2. subst w2.
  destruct (is_connected_ble (app w)); calm;
    rewrite <- ?app_assoc; repeat split.
Qed.


(** X5. Once told to stop, or once the port is marked closed, the reader
    does nothing more, whatever is waiting on the port. *)
Theorem reader_stops_when_told (polls : list SerialPoll) (w : World) :
  stop_threads (app w) = true \/ is_connected_serial (app w) = false ->
  exec (read_serial_messages polls) w = w.
Proof.
  intros H. destruct polls as [| p ps]; [done |].
  cbn [read_serial_messages]. run_method.
  by destruct H as [-> | ->]; [| destruct (stop_threads (app w))].
Qed.

(** *** The device list in use *)

(** X6. The scan button without bleak only warns.  With bleak it replaces the
    rows by the single row "Scanning...", clears the selection and starts
    one scan thread; the attributes, and with them the index map of the
    previous scan, stay as they were, so that a connection asked for on
    row 0 while that row reads "Scanning..." goes to the device the
    previous scan had put there. *)
Theorem scan_button_keeps_previous_index_map (w : World) :
  let w' := exec scan_ble_devices w in
  (BLEAK_AVAILABLE w = false ->
     tk w' = tk w /\ threads w' = threads w /\ app w' = app w /\
     exists d, dialogs w' = dialogs w ++ [d] /\ dlg_kind d = showwarning) /\
  (BLEAK_AVAILABLE w = true ->
     device_listbox (tk w') = [lit "Scanning..."] /\
     curselection (tk w') = [] /\
     threads w' = threads w ++ [Th_scan_ble_async] /\
     app w' = app w /\ dialogs w' = dialogs w /\
     forall index_map d,
       device_index_map (app w) = Some index_map -> index_map !! 0 = Some d ->
       exec connect_ble (select_rows [0] w') =
       set_threads (threads w' ++ [Th_connect_ble_async d]) (select_rows [0] w')).
Proof.
  intros w'. split; intros Hb.
  - subst w'. unfold scan_ble_devices. run_calm. rewrite Hb. calm.
    repeat split. by eexists.
  - eassert (w' = _) as Hw'.
    { subst w'. unfold scan_ble_devices. run_calm. rewrite Hb. calm.
      reflexivity. }
    clearbody w'. subst w'. calm. repeat split.
    intros index_map d Hm Hd.
    unfold connect_ble, selected_device, select_rows. run_calm.
    rewrite Hm. calm. rewrite Hd. reflexivity.
Qed.

(** X7. After a scan result is shown, the row the user selects decides what
    the Inspect and Connect buttons do: on the row of a device they start
    a thread for that very device and show nothing; on the separator row,
    or below the last row, they warn and start nothing; with nothing
    selected they warn and start nothing. *)
Theorem selected_row_decides_device
  (devices : list Device) (i : nat) (more : list nat) (w : World) :
  let w1 := exec (_update_device_list devices) w in
  let w2 := select_rows (i :: more) w1 in
  match entries devices !! i with
  | Some (Some d) =>
      device_listbox (tk w2) !! i = Some (row_of (Some d)) /\
      exec inspect_ble_device w2 =
        set_threads (threads w2 ++ [Th_inspect_ble_async d]) w2 /\
      exec connect_ble w2 =
        set_threads (threads w2 ++ [Th_connect_ble_async d]) w2
  | _ =>
      exec inspect_ble_device w2 =
        set_dialogs (dialogs w2 ++ [invalid_selection]) w2 /\
      exec connect_ble w2 =
        set_dialogs (dialogs w2 ++ [invalid_selection]) w2
  end /\
  exec inspect_ble_device w1 = set_dialogs (dialogs w1 ++ [no_selection]) w1 /\
  exec connect_ble w1 = set_dialogs (dialogs w1 ++ [no_selection]) w1.
Proof.
  intros w1 w2.
  destruct (fill_listbox_spec devices) as (m & Hfill & Hag).
  eassert (w1 = _) as Hw1.
  { subst w1. unfold _update_device_list. rewrite Hfill. run_calm.
    reflexivity. }
  clearbody w1. subst w1. subst w2. unfold select_rows.
  split; [| split].
  - pose proof (Hag i) as Hi.
    destruct (entries devices !! i) as [[d |] |] eqn:He; cbn in Hi.
    + split; [| split].
      * calm. rewrite list_lookup_fmap, He. reflexivity.
      * unfold inspect_ble_device, selected_device. run_calm.
        rewrite Hi. reflexivity.
      * unfold connect_ble, selected_device. run_calm.
        rewrite Hi. reflexivity.
    + split; unfold inspect_ble_device, connect_ble, selected_device;
        run_calm; rewrite Hi; reflexivity.
    + split; unfold inspect_ble_device, connect_ble, selected_device;
        run_calm; rewrite Hi; reflexivity.
  - unfold inspect_ble_device, selected_device. run_calm. reflexivity.
  - unfold connect_ble, selected_device. run_calm. reflexivity.
Qed.

(** *** Inspection *)

(** X8. An inspection works on a client of its own: it changes no attribute
    of the application and queues nothing itself; it connects once and,
    whether or not that succeeded, disconnects when the client reports to
    be connected at the end. *)
Theorem inspection_uses_its_own_client (device : Device) (o : Bleak) (w : World) :
  let w' := exec (_inspect_ble device o) w in
  app w' = app w /\ after_queue w' = after_queue w /\
  ble_calls w' =
    ble_calls w ++
    (BridgeLoop, BleConnect (dev_address device)) ::
    (if bk_is_connected o
     then [(BridgeLoop, BleDisconnect (dev_address device))] else []).
Proof.
  unfold _inspect_ble. run_calm.
  destruct (bk_connect o) as [[] | e], (bk_is_connected o); calm;
    try destruct (bk_disconnect o) as [[] | e']; calm;
    rewrite <- ?app_assoc; repeat split.
Qed.




(** *** Waiting on the bridge *)

(** X10. A send submitted when no client exists writes nothing and is still
    reported to the user as sent. *)
Theorem send_without_client_reports_sent (message : str) (o : Bleak) (w : World) :
  bridge_idle w ->
  ble_client (app w) = None ->
  let w' := exec (_send_ble_async message [o]) w in
  ble_calls w' = ble_calls w /\
  after_queue w' =
    after_queue w ++
    [Cb_add_ble_message (lit "[GUI] Sent: " ++ message) (lit "sent")].
Proof.
  intros (m & l & Hm & Hl & Hc & Hr & Hq) Hcl.
  unfold _send_ble_async, no_manager, run_async, future_result, loop_run,
    loop_step, run_coro, _send_ble.
  run_calm_with
    ltac:(rewrite ?Hm, ?Hl, ?Hc, ?Hr, ?Hq, ?Hcl, ?lookup_insert_eq).
  repeat split.
Qed.


(** X12. After [shutdown] the loop has stopped but is not closed: it makes no
    further turn, yet [run_async] still accepts a coroutine, which then
    waits in the queue for ever. *)
Theorem stopped_loop_still_accepts_calls
  (w : World) (m : AsyncioManager) (l : Loop) :
  asyncio_manager (app w) = Some m -> am_loop m = Some l ->
  loop_closed l = false ->
  let w1 := exec shutdown w in
  (exists m1 l1, asyncio_manager (app w1) = Some m1 /\ am_loop m1 = Some l1 /\
                 loop_running l1 = false /\ loop_closed l1 = false /\
                 am_executor_open m1 = false /\ loop_ready l1 = loop_ready l) /\
  (forall turns, exec (loop_run turns) w1 = w1) /\
  (forall c,
     outcome (run_async c) w1 = Ok (next_future w) /\
     bridge_queue (exec (run_async c) w1) =
       loop_ready l ++ [(next_future w, c)]).
Proof.
  intros Hm Hl Hc w1.
  eassert (w1 = _) as Hw1.
  { subst w1. unfold shutdown. run_calm. rewrite Hm. calm. rewrite Hl. calm.
    rewrite Hc. calm. reflexivity. }
  clearbody w1. subst w1. split; [| split].
  - eexists _, _. calm. repeat split; done.
  - induction turns as [| o os IH]; [done |].
    cbn [loop_run]. unfold exec, bind in *. unfold loop_step at 1.
    run_calm. rewrite ?Hc. calm. exact IH.
  - intros c. unfold run_async, bridge_queue. run_calm. rewrite ?Hc. calm.
    repeat split.
Qed.

(** *** Closing *)


(** *** The flags and the objects they stand for *)

#[local] Instance same_serial_link_preorder : PreOrder same_serial_link.
Proof.
  split; unfold same_serial_link; [done |].
  intros w1 w2 w3 [H1 H2] [H3 H4]. split; congruence.
Qed.

#[local] Instance same_ble_link_preorder : PreOrder same_ble_link.
Proof.
  split; unfold same_ble_link; [done |].
  intros w1 w2 w3 [H1 H2] [H3 H4]. split; congruence.
Qed.

#[local] Instance closed_or_same_preorder : PreOrder closed_or_same.
Proof.
  split; [by left |].
  intros w1 w2 w3 H12 [[H1 H2] | H23]; [| by right].
  destruct H12 as [H12 | [H3 H4]]; [left; by etrans |].
  right. split; congruence.
Qed.

#[local] Instance keeps_preorder (P : World -> Prop) : PreOrder (keeps P).
Proof.
  split; [intros w H; exact H |].
  intros w1 w2 w3 H1 H2 H. exact (H2 (H1 H)).
Qed.

(** The serial link. *)

Lemma loop_run_serial_link (turns : list Bleak) :
  respects same_serial_link (loop_run turns).
Proof.
  induction turns as [| o os IH]; simpl; respects_step; [| exact IH].
  respects_walk_bodies; done.
Qed.

Lemma read_serial_messages_serial_link (polls : list SerialPoll) :
  respects same_serial_link (read_serial_messages polls).
Proof.
  induction polls as [| p ps IH]; simpl; [respects_step |].
  respects_walk_bodies; try exact IH; done.
Qed.

Lemma run_thread_serial_link (t : Thread) (env : Env) :
  respects same_serial_link (run_thread t env).
Proof.
  destruct t; simpl;
    [ apply loop_run_serial_link | apply read_serial_messages_serial_link | .. ];
    respects_walk_bodies; try apply loop_run_serial_link; done.
Qed.

Lemma serial_consistent_link {A} (m : M A) :
  respects same_serial_link m -> preserves serial_consistent m.
Proof.
  intros Hm w. destruct (Hm w) as [H1 H2].
  unfold serial_consistent. by rewrite H1, H2.
Qed.

Lemma serial_open_consistent (w : World) : serial_open w -> serial_consistent w.
Proof. intros [H1 H2]. by split. Qed.

Lemma serial_closed_consistent (w : World) :
  serial_closed w -> serial_consistent w.
Proof.
  intros [H1 H2]. unfold serial_consistent. rewrite H1, H2.
  split; [done | by intros [x [=]]].
Qed.

Lemma connect_serial_link (opened : Res unit) (w : World) :
  let w' := exec (connect_serial opened) w in
  same_serial_link w w' \/ serial_open w'.
Proof.
  unfold same_serial_link, serial_open.
  unfold connect_serial, add_serial_message, update_connection_status.
  plumb. destruct (int_of_str (baud_var (tk w))) as [baud | e]; plumb;
    [destruct opened as [[] | e] |]; plumb; calm.
  - right. split; [reflexivity | eexists; reflexivity].
  - left. split; reflexivity.
  - left. split; reflexivity.
Qed.

Lemma disconnect_serial_link (w : World) :
  serial_closed (exec disconnect_serial w).
Proof.
  unfold serial_closed.
  destruct w as [bleak a t q d out th fs sc bc fu nf wa pl hms full].
  destruct a as [conn client ics icb mc sth stp am dim bd].
  unfold disconnect_serial, add_serial_message, update_connection_status.
  destruct conn as [s |], icb; run_calm; split; reflexivity.
Qed.

Lemma disconnect_serial_closes : respects closed_or_same disconnect_serial.
Proof. intros w. right. apply disconnect_serial_link. Qed.

Lemma on_closing_closes : respects closed_or_same on_closing.
Proof.
  unfold on_closing, disconnect_ble, shutdown.
  repeat first [ apply disconnect_serial_closes
               | progress autounfold with methods
               | respects_step ];
    by left.
Qed.

Lemma run_op_serial_consistent (op : Op) :
  preserves serial_consistent (run_op op).
Proof.
  destruct op as [ports | opened | written | command written | | | | |
                  filename io | | | | | t env | data]; cbn [run_op];
    try (apply serial_consistent_link;
         first [ apply run_thread_serial_link
               | unfold save_messages, write_file;
                 respects_walk_bodies; done ]).
  - intros w H. unfold toggle_serial_connection, exec, bind, gets.
    cbv beta iota.
    destruct (is_connected_serial (app w)); cbn [negb].
    + exact (serial_closed_consistent _ (disconnect_serial_link w)).
    + destruct (connect_serial_link opened w) as [[H1 H2] | Ho].
      * unfold serial_consistent, exec in *. by rewrite H1, H2.
      * exact (serial_open_consistent _ Ho).
  - intros w H. destruct (on_closing_closes w) as [[H1 H2] | Hc].
    + unfold serial_consistent. by rewrite H1, H2.
    + by apply serial_closed_consistent.
Qed.

(** The BLE link. *)

Lemma same_ble_keeps {A} (m : M A) :
  respects same_ble_link m -> respects (keeps ble_consistent) m.
Proof.
  intros Hm w. destruct (Hm w) as [H1 H2].
  unfold keeps, ble_consistent. by rewrite H1, H2.
Qed.

Lemma _connect_ble_has_client (device : Device) (o : Bleak) (w : World) :
  is_Some (ble_client (app (exec (_connect_ble device o) w))).
Proof.
  unfold _connect_ble. run_calm.
  destruct (bk_connect o) as [[] | e]; calm;
    [ destruct (find_service (bk_services o)) as [[] []]; calm;
      [ destruct (bk_start_notify o) as [[] | e]; calm
      | destruct (bk_disconnect o) as [[] | e]; calm
      | destruct (bk_disconnect o) as [[] | e]; calm
      | destruct (bk_disconnect o) as [[] | e]; calm ] | ];
    try (destruct (bk_disconnect_cleanup o) as [[] | e']; calm);
    eexists; reflexivity.
Qed.

Lemma _connect_ble_keeps (device : Device) (o : Bleak) :
  respects (keeps ble_consistent) (_connect_ble device o).
Proof. intros w _ _. apply _connect_ble_has_client. Qed.

Lemma _ble_disconnected_flag (w : World) :
  is_connected_ble (app (exec _ble_disconnected w)) = false.
Proof.
  unfold _ble_disconnected, add_ble_message, update_connection_status.
  run_calm. destruct (ble_messages (tk w)); calm; [| reflexivity].
  destruct (is_connected_serial (app w)); reflexivity.
Qed.

Lemma _ble_disconnected_keeps : respects (keeps ble_consistent) _ble_disconnected.
Proof.
  intros w _ H. by rewrite _ble_disconnected_flag in H.
Qed.

Lemma run_coro_ble_link (c : Coro) (o : Bleak) :
  respects (keeps ble_consistent) (run_coro c o).
Proof.
  destruct c; cbn [run_coro].
  - apply same_ble_keeps. unfold _scan_ble. respects_walk; done.
  - apply same_ble_keeps. unfold _inspect_ble. respects_walk; done.
  - respects_step; [apply _connect_ble_keeps | respects_step].
  - apply same_ble_keeps. unfold _send_ble. respects_walk; done.
Qed.

Lemma loop_run_ble_link (turns : list Bleak) :
  respects (keeps ble_consistent) (loop_run turns).
Proof.
  induction turns as [| o os IH]; simpl; respects_step; [| exact IH].
  unfold loop_step.
  repeat first [ apply run_coro_ble_link
               | progress autounfold with methods
               | respects_step ];
    intros H; exact H.
Qed.

Lemma run_async_ble_link (c : Coro) :
  respects (keeps ble_consistent) (run_async c).
Proof. apply same_ble_keeps. unfold run_async. respects_walk; done. Qed.

Lemma run_thread_ble_link (t : Thread) (env : Env) :
  respects (keeps ble_consistent) (run_thread t env).
Proof.
  destruct t; cbn [run_thread].
  - apply loop_run_ble_link.
  - apply same_ble_keeps.
    induction (env_polls env) as [| p ps IH]; simpl; [respects_step |].
    respects_walk_bodies; try exact IH; done.
  - unfold _scan_ble_async, future_result.
    repeat first [ apply loop_run_ble_link | apply run_async_ble_link
                 | progress autounfold with methods | respects_step ];
      intros H; exact H.
  - unfold _inspect_ble_async, future_result.
    repeat first [ apply loop_run_ble_link | apply run_async_ble_link
                 | progress autounfold with methods | respects_step ];
      intros H; exact H.
  - unfold _connect_ble_async, future_result.
    repeat first [ apply loop_run_ble_link | apply run_async_ble_link
                 | progress autounfold with methods | respects_step ];
      intros H; exact H.
  - apply same_ble_keeps. unfold _disconnect_ble_async. respects_walk; done.
  - unfold _send_ble_async, future_result.
    repeat first [ apply loop_run_ble_link | apply run_async_ble_link
                 | progress autounfold with methods | respects_step ];
      intros H; exact H.
Qed.

Lemma run_callback_ble_link (cb : Callback) :
  respects (keeps ble_consistent) (run_callback cb).
Proof.
  destruct cb; cbn [run_callback];
    first [ apply _ble_disconnected_keeps
          | apply same_ble_keeps; respects_walk_bodies; done ].
Qed.

Lemma run_op_ble_link (op : Op) :
  respects (keeps ble_consistent) (run_op op).
Proof.
  destruct op; cbn [run_op];
    first [ apply run_thread_ble_link
          | solve [ apply same_ble_keeps; unfold save_messages, write_file;
                    respects_walk_bodies; done ]
          | idtac ].
  unfold mainloop_turn.
  repeat first [ apply run_callback_ble_link
               | progress autounfold with methods
               | respects_step ];
    intros H; exact H.
Qed.

(** X14. The two flags and the objects behind them, in every state the
    application can reach: after it is built, and after any sequence of
    button presses, turns of [mainloop], threads and notifications,
    [is_connected_serial] is up exactly when there is a serial
    connection, and [is_connected_ble] is up only when there is a
    client. *)
Theorem connection_flags_match_objects
  (bleak : bool) (fs : gmap str str) (hms full : str) (ports : list str)
  (ops : list Op) :
  let w := run_ops ops (exec (ESP32S3_GUI_init ports) (blank bleak fs hms full)) in
  serial_consistent w /\ ble_consistent w.
Proof.
  cbv zeta.
  assert (serial_consistent (exec (ESP32S3_GUI_init ports)
                                  (blank bleak fs hms full)) /\
          ble_consistent (exec (ESP32S3_GUI_init ports)
                               (blank bleak fs hms full))) as H0.
  { unfold serial_consistent, ble_consistent.
    unfold ESP32S3_GUI_init, AsyncioManager_init, setup_gui, setup_serial_tab,
      setup_ble_tab, setup_settings_tab, setup_status_bar, refresh_serial_ports.
    destruct bleak, ports as [| p0 ports']; run_calm;
      try destruct (bool_decide _); calm;
      (split; [split; [discriminate | intros [x [=]]] | discriminate]). }
  revert H0. generalize (exec (ESP32S3_GUI_init ports) (blank bleak fs hms full)).
  induction ops as [| op ops IH]; intros w [Hs Hb]; [by split |].
  cbn [run_ops fold_left]. apply IH. split.
  - by apply run_op_serial_consistent.
  - by apply (run_op_ble_link op w).
Qed.

(** *** The GUI thread *)

#[local] Instance quiet_preorder : PreOrder quiet.
Proof.
  split; [done |].
  intros w1 w2 w3 (A1 & A2 & A3 & A4 & A5 & A6 & A7 & A8)
    (B1 & B2 & B3 & B4 & B5 & B6 & B7 & B8).
  repeat split; congruence.
Qed.

Lemma run_callback_quiet (cb : Callback) : respects quiet (run_callback cb).
Proof. destruct cb; cbn [run_callback]; respects_walk_bodies; done. Qed.

Lemma mainloop_turn_queue (w : World) :
  after_queue (exec mainloop_turn w) = tail (after_queue w).
Proof.
  unfold mainloop_turn, exec, bind, gets, modify, try_except, print, ret.
  cbv beta iota.
  destruct (after_queue w) as [| cb rest] eqn:Hq; cbv beta iota.
  - cbn [snd]. by rewrite Hq.
  - destruct (run_callback_quiet cb (set_after_queue rest w))
      as (_ & _ & _ & _ & H & _).
    unfold exec in H.
    destruct (run_callback cb (set_after_queue rest w)) as [[[] | e] w1];
      exact H.
Qed.

Lemma mainloop_turns_queue (n : nat) (w : World) :
  after_queue (Nat.iter n (exec mainloop_turn) w) = drop n (after_queue w).
Proof.
  induction n as [| n IH]; [done |].
  rewrite Nat.iter_succ, mainloop_turn_queue, IH.
  change (tail (drop n (after_queue w))) with (drop 1 (drop n (after_queue w))).
  rewrite drop_drop. f_equal. lia.
Qed.

(** X15. A turn of [mainloop] takes the oldest closure off the queue and runs
    it.  Whatever the closure, the turn raises nothing, queues nothing,
    starts no thread, calls neither pyserial nor bleak, writes no file
    and leaves the bridge alone; so the queue is empty after as many
    turns as there were closures. *)
Theorem gui_callbacks_do_no_io (w : World) :
  let w' := exec mainloop_turn w in
  outcome mainloop_turn w = Ok tt /\
  after_queue w' = tail (after_queue w) /\
  threads w' = threads w /\ serial_calls w' = serial_calls w /\
  ble_calls w' = ble_calls w /\ files w' = files w /\
  futures w' = futures w /\
  asyncio_manager (app w') = asyncio_manager (app w) /\
  after_queue (Nat.iter (List.length (after_queue w)) (exec mainloop_turn) w) = [].
Proof.
  cbv zeta. split; [| split; [apply mainloop_turn_queue |]].
  - unfold mainloop_turn, outcome, bind, gets, modify, try_except, print, ret.
    cbv beta iota.
    destruct (after_queue w) as [| cb rest]; [reflexivity |].
    cbv beta iota.
    by destruct (run_callback cb (set_after_queue rest w)) as [[[] | e] w1].
  - rewrite mainloop_turns_queue, drop_all.
    unfold mainloop_turn, exec, bind, gets, modify, try_except, print, ret.
    cbv beta iota.
    destruct (after_queue w) as [| cb rest]; [by repeat split |].
    cbv beta iota.
    destruct (run_callback_quiet cb (set_after_queue rest w))
      as (H1 & H2 & H3 & H4 & _ & H6 & _ & H8).
    unfold exec in *.
    destruct (run_callback cb (set_after_queue rest w)) as [[[] | e] w1];
      cbn in *; by repeat split.
Qed.

(** *** The message displays *)

#[local] Instance logs_grow_preorder : PreOrder logs_grow.
Proof.
  split.
  - intros w. split; [done | split; [| done]].
    intros text Ht. by exists text.
  - intros w1 w2 w3 (A1 & A2 & A3) (B1 & B2 & B3).
    split; [by etrans | split; [| lia]].
    intros text Ht. destruct (A2 _ Ht) as (text2 & Ht2 & Hp).
    destruct (B2 _ Ht2) as (text3 & Ht3 & Hp3).
    exists text3. split; [done | by etrans].
Qed.

Create HintDb gentle.
#[local] Hint Unfold run_async shutdown update_connection_status
  add_serial_message refresh_serial_ports connect_serial disconnect_serial
  toggle_serial_connection read_serial_turn send_serial_command_direct
  send_serial_command _update_device_list scan_ble_devices selected_device
  inspect_ble_device connect_ble disconnect_ble toggle_ble_connection
  send_ble_message _scan_ble _inspect_ble _connect_ble _send_ble
  _ble_notification_handler run_coro loop_step future_result
  _scan_ble_async _inspect_ble_async _connect_ble_async _send_ble_async
  _disconnect_ble_async _ble_connected _ble_disconnected _show_device_info
  run_callback mainloop_turn show_about on_closing save_messages write_file
  : gentle.

(** A step that leaves the displays alone or appends to one of them. *)
Ltac logs_frame :=
  unfold logs_grow; calm;
  split; [first [reflexivity | by apply prefix_app_r] |
  split; [intros text Ht; exists text; by split | lia]].

Lemma add_ble_message_grows (message msg_type : str) :
  respects logs_grow (add_ble_message message msg_type).
Proof.
  intros w. unfold logs_grow. unfold add_ble_message. run_calm.
  destruct (ble_messages (tk w)) as [shown |]; calm.
  - split; [reflexivity | split; [| lia]].
    intros text [= <-]. eexists. split; [reflexivity |].
    by apply prefix_app_r.
  - split; [reflexivity | split; [| lia]]. by intros text [=].
Qed.

Ltac logs_walk known :=
  repeat first [ apply add_ble_message_grows
               | known
               | progress autounfold with methods
               | progress autounfold with gentle
               | respects_step ];
  try logs_frame.

Lemma loop_run_logs (turns : list Bleak) : respects logs_grow (loop_run turns).
Proof.
  induction turns as [| o os IH]; simpl; respects_step; [| exact IH].
  logs_walk fail.
Qed.

Lemma read_serial_messages_logs (polls : list SerialPoll) :
  respects logs_grow (read_serial_messages polls).
Proof.
  induction polls as [| p ps IH]; simpl; [respects_step |].
  logs_walk ltac:(exact IH).
Qed.

Lemma run_thread_logs (t : Thread) (env : Env) :
  respects logs_grow (run_thread t env).
Proof.
  destruct t; cbn [run_thread];
    [ apply loop_run_logs | apply read_serial_messages_logs | .. ];
    logs_walk ltac:(apply loop_run_logs).
Qed.

(** X16. The two displays are append-only.  Whatever the operation, other
    than Clear, the text a display showed before is still the beginning
    of what it shows after, and the counter of messages has not gone
    down; Clear empties both displays and resets the counter. *)
Theorem message_displays_are_append_only (op : Op) (w : World) :
  let w' := exec (run_op op) w in
  match op with
  | Op_clear_all_messages =>
      serial_messages (tk w') = [] /\ message_count (app w') = 0 /\
      (is_Some (ble_messages (tk w)) -> ble_messages (tk w') = Some [])
  | _ => logs_grow w w'
  end.
Proof.
  destruct op; cbn [run_op]; cbv zeta;
    try (first [ apply run_thread_logs
               | apply (_ : respects logs_grow _) ]).
  all: try (match goal with
            | |- logs_grow ?w (exec ?m ?w) =>
                revert w;
                change (respects logs_grow m);
                logs_walk fail
            end).
  unfold clear_all_messages. run_calm.
  destruct (ble_messages (tk w)) as [shown |]; calm.
  - repeat split; reflexivity.
  - split; [reflexivity | split; [reflexivity |]]. by intros [text [=]].
Qed.

(** *** The connection test *)

(** X17. [test_esp32_connection] lets no error of bleak escape and changes
    nothing of the application.  When the connection fails it makes no
    other call and prints the failure.  When the connection is made, the
    last call is always the disconnection, whatever failed in between;
    the write is attempted whenever the client reports to be connected,
    even after failed reads; and an error of the disconnection itself is
    printed as "Connection failed", although the connection had been
    made. *)
Theorem connection_test_always_disconnects (o : Tester) (w : World) :
  let w' := exec (test_esp32_connection o) w in
  let calls := new_ble_calls w w' in
  outcome (test_esp32_connection o) w = Ok tt /\
  app w' = app w /\ tk w' = tk w /\
  match ts_connect o with
  | Raise e =>
      calls = [(script_loop, BleConnect ESP32_ADDRESS)] /\
      stdout w' = stdout w ++ [connection_failed_line e]
  | Ok _ =>
      last calls = Some (script_loop, BleDisconnect ESP32_ADDRESS) /\
      (ts_is_connected o = true -> test_write ∈ calls) /\
      (ts_is_connected o = false ->
       calls = [(script_loop, BleConnect ESP32_ADDRESS);
                (script_loop, BleDisconnect ESP32_ADDRESS)]) /\
      (forall e, ts_disconnect o = Raise e ->
                 last (stdout w') = Some (connection_failed_line e))
  end.
Proof.
  cbv zeta. unfold test_esp32_connection, tester_call, test_write,
    connection_failed_line.
  destruct o as [cn ic rn rd wr rb dc]. run_calm.
  destruct cn as [[] | e1], ic, rn as [? | e2], rd as [? | e3],
    wr as [[] | e4], rb as [? | e5], dc as [[] | e6];
    calm;
    (erewrite new_ble_calls_app; [| calm; rewrite <- ?app_assoc; reflexivity]);
    (split; [reflexivity | split; [reflexivity | split; [reflexivity |]]]);
    (split; [reflexivity |]);
    first [ reflexivity
          | split; [intros Hic; first [discriminate Hic | repeat constructor] |
            split; [intros Hic; first [discriminate Hic | reflexivity] |
                    first [ by intros e [=]
                          | intros e [= <-]; by rewrite last_snoc ]]] ].
Qed.

(** *** The setup script *)


(** X18. Packages are handed to pip in the order of the list, up to and
    including the first for which pip fails; the packages after it are
    not attempted.  The loop returns [True] when pip succeeded for all of
    them, [False] when pip exited with an error, and lets any other
    exception through. *)
Theorem install_stops_at_first_failure
  (pip : str -> Pip) (packages : list str) (st : Setup) :
  let r := (install_packages pip packages st).1 in
  let st' := (install_packages pip packages st).2 in
  exists installed rest,
    packages = installed ++ rest /\
    Forall (fun p => pip p = PipOk) installed /\
    match rest with
    | [] => r = Ok true /\ su_pip st' = su_pip st ++ packages
    | p :: _ =>
        su_pip st' = su_pip st ++ installed ++ [p] /\
        match pip p with
        | PipOk => False
        | PipFails _ => r = Ok false
        | PipCrashes e => r = Raise e
        end
    end.
Proof.
  cbv zeta. revert st. induction packages as [| p ps IH]; intros st.
  - exists [], []. cbn. by rewrite app_nil_r.
  - cbn [install_packages]. destruct (pip p) as [| text | e] eqn:Hp.
    + destruct (IH (su_print ([10003; 32]%N ++ p ++
                              lit " installed successfully")
                      (su_check_call p
                         (su_print (lit "Installing " ++ p ++ lit "...") st))))
        as (installed & rest & -> & Hall & Hrest).
      exists (p :: installed), rest. split; [done |].
      split; [by constructor |].
      destruct rest as [| q rest'].
      * destruct Hrest as [-> ->]. split; [done |].
        cbn [su_pip su_print su_check_call]. by rewrite <- app_assoc.
      * destruct Hrest as [-> Hq]. split; [| done].
        cbn [su_pip su_print su_check_call]. by rewrite <- app_assoc.
    + exists [], (p :: ps). split; [done |]. split; [constructor |].
      rewrite Hp. done.
    + exists [], (p :: ps). split; [done |]. split; [constructor |].
      rewrite Hp. done.
Qed.





End GUI.

(* ===================================================================== *)
(** ** The theorems at concrete inputs *)
(* ===================================================================== *)

(** The runtime of the examples: ASCII case mappings, one byte per
    character, decimal [int()]. *)
Abbreviation run_op_ascii :=
  (run_op ascii_upper ascii_lower latin1_decode latin1_encode int_ascii).
Abbreviation run_thread_ascii :=
  (run_thread ascii_lower latin1_decode latin1_encode).



Example connect_to_firmware_raises_flag :
  is_connected_ble
    (app (exec (_connect_ble ascii_lower xiao (bleak_ok [] firmware_services))
               w_ready)) = true.
Proof. reflexivity. Qed.

Example connect_to_speaker_keeps_flag_down :
  let w' := exec (_connect_ble ascii_lower speaker (bleak_ok [] [])) w_ready in
  is_connected_ble (app w') = false /\
  ble_calls w' = [(BridgeLoop, BleConnect (dev_address speaker));
                  (BridgeLoop, BleDisconnect (dev_address speaker))] /\
  after_queue w' =
    [Cb_showerror (lit "BLE Error") (service_missing_text speaker)].
Proof. by vm_compute. Qed.

(** C1: the scan goes through the bridge, the disconnection does not. *)
Example scan_is_queued_on_the_bridge :
  let w' := exec (run_thread_ascii Th_scan_ble_async no_env) w_ready in
  bridge_queue w' = [(0, Co_scan_ble)] /\ waits w' = [(0, 10%Z)].
Proof. by vm_compute. Qed.

Example disconnect_runs_on_a_private_loop :
  let connected :=
    exec (_connect_ble ascii_lower xiao (bleak_ok [] firmware_services))
         w_ready in
  let w' := exec (_disconnect_ble_async (Raise (LibError (lit "gone"))))
                 connected in
  bridge_queue w' = [] /\ waits w' = [] /\
  ble_calls w' =
    [(BridgeLoop, BleConnect (dev_address xiao));
     (BridgeLoop, BleStartNotify (dev_address xiao) CHARACTERISTIC_UUID);
     (PrivateLoop 0, BleDisconnect (dev_address xiao))] /\
  dialogs w' = [] /\
  stdout w' = [lit "BLE disconnect error: gone"].
Proof. by vm_compute. Qed.

(** C2, as stated, fails: the scan waits 10 seconds, the send 5. *)
Lemma one_timeout_for_all_calls_counterexample :
  ~ (exists timeout : Z,
       waits (exec (run_thread_ascii Th_scan_ble_async no_env) w_ready)
         = [(0, timeout)] /\
       waits (exec (run_thread_ascii (Th_send_ble_async (lit "hi")) no_env)
                   w_ready)
         = [(0, timeout)]).
Proof.
  intros (timeout & Hscan & Hsend).
  vm_compute in Hscan, Hsend. congruence.
Qed.

(** C2, amended, at the application just built. *)
Lemma bridge_calls_submit_and_wait_witness :
  asyncio_manager (app w_ready) = Some fresh_manager /\
  am_loop fresh_manager = Some idle_loop /\
  loop_closed idle_loop = false /\
  ((forall w0 ports, BLEAK_AVAILABLE w0 = true ->
      let w1 := exec (ESP32S3_GUI_init ports) w0 in
      threads w1 = threads w0 ++ [Th_run_loop] /\
      exists m1 l1, asyncio_manager (app w1) = Some m1 /\
                    am_loop m1 = Some l1 /\ am_thread m1 = Some Th_run_loop /\
                    loop_running l1 = true /\ loop_closed l1 = false) /\
   (forall op w0, no_new_loop_thread w0 (exec (run_op_ascii op) w0)) /\
   (forall t c timeout env, bridge_call t = Some (c, timeout) ->
      let w' := exec (run_thread_ascii t env) w_ready in
      next_future w' = S (next_future w_ready) /\
      waits w' = waits w_ready ++ [(next_future w_ready, timeout)] /\
      (env_turns env = [] ->
       bridge_queue w' = bridge_queue w_ready ++ [(next_future w_ready, c)]))).
Proof.
  split; [reflexivity | split; [reflexivity | split; [reflexivity |]]].
  apply (bridge_calls_submit_and_wait
           ascii_upper ascii_lower latin1_decode latin1_encode int_ascii
           w_ready fresh_manager idle_loop); reflexivity.
Defined.



Example serial_port_refused :
  let w' := exec (connect_serial int_ascii (Raise adapter_off)) w_ready in
  dialogs w' =
    [error_dialog (lit "Connection Error")
       (lit "Failed to connect to COM9:" ++ nl ++ lit "adapter off")] /\
  status_var (tk w') = lit "Connection failed" /\
  is_connected_serial (app w') = false.
Proof. by vm_compute. Qed.

(** C5 at a peripheral that runs the firmware and then notifies "pong". *)
Lemma notifications_are_subscribed_and_logged_witness :
  bk_connect (bleak_ok [] firmware_services) = Ok tt /\
  find_service ascii_lower (bk_services (bleak_ok [] firmware_services))
    = (true, true) /\
  (BridgeLoop, BleStartNotify (dev_address xiao) CHARACTERISTIC_UUID)
    ∈ new_ble_calls w_ready
        (exec (_connect_ble ascii_lower xiao (bleak_ok [] firmware_services))
              w_ready).
Proof.
  split; [reflexivity | split; [reflexivity |]].
  apply (proj1 (notifications_are_subscribed_and_logged
                  ascii_upper ascii_lower latin1_decode));
    reflexivity.
Defined.

Example notification_reaches_the_log :
  let pong := [x70; x6f; x6e; x67; x0d; x0a]%byte in
  let w1 := exec (_ble_notification_handler latin1_decode pong) w_ready in
  let w2 := exec (mainloop_turn ascii_upper) w1 in
  after_queue w1 = [Cb_add_ble_message (lit "[BLE] pong") (lit "received")] /\
  ble_messages (tk w2) =
    Some (lit "12:00:00 " ++ [8218; 220; 234; 32]%N ++ lit "[BLE] pong" ++ nl) /\
  message_count (app w2) = 1.
Proof. by vm_compute. Qed.

(** C6, as stated, fails: a save changes the status bar. *)
Lemma save_changes_status_bar_counterexample :
  let w' := exec (save_messages (lit "log.txt") IoOk) w_ready in
  files w' !! lit "log.txt" <> None /\ app w' = app w_ready /\
  tk w' <> tk w_ready /\
  status_var (tk w_ready) = lit "Found 0 serial port(s)" /\
  status_var (tk w') = lit "Messages saved to log.txt".
Proof.
  assert (status_var (tk (exec (save_messages (lit "log.txt") IoOk) w_ready))
          = lit "Messages saved to log.txt") as Hs by by vm_compute.
  cbv zeta. split; [by vm_compute | split; [by vm_compute |]].
  split; [| split; [by vm_compute | exact Hs]].
  intros Htk. rewrite Htk in Hs. by vm_compute in Hs.
Qed.

Example saved_log :
  files (exec (save_messages (lit "log.txt") IoOk)
              (exec (add_serial_message (lit "hello") (lit "received")) w_ready))
    !! lit "log.txt" =
  Some (lit "XIAO ESP32S3 Communication Log" ++ nl ++
        lit "Generated: 2025-11-01 12:00:00" ++ nl ++
        times "=" 50 ++ nl ++ nl ++
        lit "USB Serial Messages:" ++ nl ++
        times "-" 20 ++ nl ++
        lit "12:00:00 " ++ [8218; 220; 234; 32]%N ++ lit "hello" ++ nl ++ nl ++
        nl ++ lit "BLE Messages:" ++ nl ++
        times "-" 20 ++ nl ++ nl).
Proof. by vm_compute. Qed.

(** C7, as stated, fails: without bleak the notebook offers one
    transport. *)
Lemma one_transport_without_bleak_counterexample :
  BLEAK_AVAILABLE w_no_bleak = false /\
  transports w_no_bleak = [UsbSerial] /\
  transports w_no_bleak <> [UsbSerial; Ble].
Proof. by vm_compute. Qed.

Example two_transports_with_bleak :
  transports w_ready = [UsbSerial; Ble] /\
  notebook (tk w_ready) =
    [lit "USB Serial"; lit "BLE Communication"; lit "Settings & Info"].
Proof. by vm_compute. Qed.

(** C8 on a scan that found a speaker, the board and a nameless device. *)
Example device_list_example :
  let w' := exec (_update_device_list ascii_upper [speaker; xiao; nameless])
                 w_ready in
  device_listbox (tk w') =
    [ esp32_prefix ++ lit "XIAO-ESP32S3-Test (B8:F8:62:FB:87:6D)";
      separator;
      other_prefix ++ lit "Speaker (00:11:22:33:44:55)";
      other_prefix ++ lit "Unknown (66:77:88:99:AA:BB)" ] /\
  (device_index_map (app w') ≫= (fun m => m !! 0)) = Some xiao /\
  (device_index_map (app w') ≫= (fun m => m !! 1)) = None /\
  (device_index_map (app w') ≫= (fun m => m !! 2)) = Some speaker /\
  (device_index_map (app w') ≫= (fun m => m !! 3)) = Some nameless /\
  (device_index_map (app w') ≫= (fun m => m !! 4)) = None.
Proof. by vm_compute. Qed.

(** C10, as stated, fails: blank input on a closed serial port shows no
    warning. *)
Lemma blank_serial_input_shows_no_warning_counterexample :
  is_connected_serial (app (typed (lit "   ") [])) = false /\
  dialogs (exec (send_serial_command latin1_encode (Ok tt)) (typed (lit "   ") []))
    = [] /\
  dialogs (exec (send_serial_command latin1_encode (Ok tt)) (typed (lit "   ") []))
    <> dialogs (typed (lit "   ") []) ++ [serial_warning].
Proof. by vm_compute. Qed.

(** C10, amended, at " ping " typed with the serial port open. *)
Lemma send_strips_and_guards_witness :
  strip (serial_command_var (tk (on_serial (typed (lit " ping ") [])))) <> [] /\
  is_connected_serial (app (on_serial (typed (lit " ping ") []))) = true /\
  serial_connection (app (on_serial (typed (lit " ping ") []))) = Some com9 /\
  (let w' := exec (send_serial_command latin1_encode (Ok tt))
                  (on_serial (typed (lit " ping ") [])) in
   serial_calls w' =
     serial_calls (on_serial (typed (lit " ping ") [])) ++
     [SerWrite (ser_port com9)
        (latin1_encode
           (strip (serial_command_var (tk (on_serial (typed (lit " ping ") []))))
            ++ nl))] /\
   serial_command_var (tk w') = []).
Proof.
  split; [by vm_compute | split; [reflexivity | split; [reflexivity |]]].
  apply (proj1 (proj2 (proj2 (send_strips_and_guards
           latin1_encode (on_serial (typed (lit " ping ") [])) (Ok tt)))));
    [by vm_compute | reflexivity | reflexivity].
Defined.

Example ping_is_sent_stripped :
  serial_calls (exec (send_serial_command latin1_encode (Ok tt))
                     (on_serial (typed (lit " ping ") [])))
  = [SerWrite (lit "COM9") [x70; x69; x6e; x67; x0a]%byte].
Proof. by vm_compute. Qed.

Example strip_example : strip (lit "  s t" ++ [10; 160]%N) = lit "s t".
Proof. reflexivity. Qed.

Example contains_example :
  contains (lit "ESP32") (ascii_upper (lit "my-esp32s3")) = true.
Proof. reflexivity. Qed.

(** A baud rate typed as "fast". *)
Lemma connect_serial_needs_integer_baud_witness :
  int_ascii (baud_var (tk (set_tk (set_baud_var (lit "fast") (tk w_ready)) w_ready)))
    = Raise (ValueError (lit "invalid literal for int() with base 10")) /\
  (let w := set_tk (set_baud_var (lit "fast") (tk w_ready)) w_ready in
   let e := ValueError (lit "invalid literal for int() with base 10") in
   let w' := exec (connect_serial int_ascii (Ok tt)) w in
   serial_calls w' = serial_calls w /\ threads w' = threads w /\
   app w' = app w /\
   dialogs w' = dialogs w ++ [connection_error (serial_port_var (tk w)) e] /\
   status_var (tk w') = lit "Connection failed").
Proof.
  split; [reflexivity |].
  apply (connect_serial_needs_integer_baud int_ascii (Ok tt)
           (ValueError (lit "invalid literal for int() with base 10"))
           (set_tk (set_baud_var (lit "fast") (tk w_ready)) w_ready)).
  reflexivity.
Defined.

(** The default port opened at 115200 baud and closed again. *)
Lemma serial_connect_disconnect_round_trip_witness :
  int_ascii (baud_var (tk w_ready)) = Ok 115200%Z /\
  is_connected_serial (app w_ready) = false /\
  (let port := serial_port_var (tk w_ready) in
   let w1 := exec (toggle_serial_connection int_ascii (Ok tt)) w_ready in
   let w2 := exec (toggle_serial_connection int_ascii (Ok tt)) w1 in
   is_connected_serial (app w1) = true /\
   serial_connection (app w1) = Some {| ser_port := port; ser_baud := 115200 |} /\
   threads w1 = threads w_ready ++ [Th_read_serial_messages] /\
   is_connected_serial (app w2) = false /\
   serial_connection (app w2) = None /\
   stop_threads (app w2) = true /\
   serial_calls w2 =
     serial_calls w_ready ++ [SerOpen port 115200; SerClose port] /\
   serial_connect_btn (tk w2) = lit "Connect" /\
   message_count (app w2) = 2 + message_count (app w_ready) /\
   dialogs w2 = dialogs w_ready).
Proof.
  split; [reflexivity | split; [reflexivity |]].
  apply (serial_connect_disconnect_round_trip int_ascii (Ok tt) 115200%Z w_ready);
    reflexivity.
Defined.

Example reader_example :
  reader_posts latin1_decode polls_example =
    [ Cb_add_serial_message (lit "ready") (lit "received");
      Cb_update_status (lit "Serial read error: adapter off") ] /\
  reader_calls (lit "COM9") polls_example =
    [ SerReadline (lit "COM9"); SerReadline (lit "COM9") ].
Proof. by vm_compute. Qed.

(** The port of [w_ready] is closed: the reader reads nothing. *)
Lemma reader_stops_when_told_witness :
  (stop_threads (app w_ready) = true \/
   is_connected_serial (app w_ready) = false) /\
  exec (read_serial_messages latin1_decode polls_example) w_ready = w_ready.
Proof.
  split; [right; reflexivity |].
  apply (reader_stops_when_told latin1_decode polls_example w_ready).
  right. reflexivity.
Defined.


(** A peripheral with the characteristic outside the target service is
    shown as compatible by the inspector and then refused. *)
Example inspector_and_connection_disagree :
  (exists r,
     outcome (_inspect_ble ascii_lower xiao (bleak_ok [] split_services))
             w_ready = Ok (VInspect r) /\
     target_service_found r = true /\ target_char_found r = true) /\
  find_service ascii_lower split_services = (true, false) /\
  is_connected_ble
    (app (exec (_connect_ble ascii_lower xiao (bleak_ok [] split_services))
               w_ready)) = false.
Proof. split; [eexists; by vm_compute | by vm_compute]. Qed.

(** A send on the application just built, which has no client. *)
Lemma send_without_client_reports_sent_witness :
  bridge_idle w_ready /\ ble_client (app w_ready) = None /\
  (let w' := exec (_send_ble_async ascii_lower latin1_encode (lit "ping")
                     [bleak_ok [] firmware_services]) w_ready in
   ble_calls w' = ble_calls w_ready /\
   after_queue w' =
     after_queue w_ready ++
     [Cb_add_ble_message (lit "[GUI] Sent: " ++ lit "ping") (lit "sent")]).
Proof.
  assert (bridge_idle w_ready) as Hidle.
  { exists fresh_manager, idle_loop. repeat split; reflexivity. }
  split; [exact Hidle | split; [reflexivity |]].
  exact (send_without_client_reports_sent ascii_lower latin1_encode (lit "ping")
           (bleak_ok [] firmware_services) w_ready Hidle eq_refl).
Defined.


(** The late connection, on the firmware of the repository. *)
Example connection_made_after_the_error_was_shown :
  let o := bleak_ok [] firmware_services in
  let w1 := exec (_connect_ble_async ascii_lower latin1_encode xiao []) w_ready in
  let w2 := exec (loop_step ascii_lower latin1_encode o) w1 in
  is_connected_ble (app w1) = false /\
  after_queue w1 = [Cb_update_status (lit "BLE connection error: ")] /\
  is_connected_ble (app w2) = true /\
  ble_calls w2 =
    [ (BridgeLoop, BleConnect (dev_address xiao));
      (BridgeLoop, BleStartNotify (dev_address xiao) CHARACTERISTIC_UUID) ].
Proof. by vm_compute. Qed.

(** The manager of the application just built, shut down. *)
Lemma stopped_loop_still_accepts_calls_witness :
  asyncio_manager (app w_ready) = Some fresh_manager /\
  am_loop fresh_manager = Some idle_loop /\
  loop_closed idle_loop = false /\
  (let w1 := exec shutdown w_ready in
   (exists m1 l1, asyncio_manager (app w1) = Some m1 /\ am_loop m1 = Some l1 /\
                  loop_running l1 = false /\ loop_closed l1 = false /\
                  am_executor_open m1 = false /\
                  loop_ready l1 = loop_ready idle_loop) /\
   (forall turns,
      exec (loop_run ascii_lower latin1_encode turns) w1 = w1) /\
   (forall c,
      outcome (run_async c) w1 = Ok (next_future w_ready) /\
      bridge_queue (exec (run_async c) w1) =
        loop_ready idle_loop ++ [(next_future w_ready, c)])).
Proof.
  split; [reflexivity | split; [reflexivity | split; [reflexivity |]]].
  apply (stopped_loop_still_accepts_calls ascii_lower latin1_encode w_ready
           fresh_manager idle_loop); reflexivity.
Defined.

(** The setup script on three machines: an old interpreter; pip failing
    for the first requirement; everything in order, the answer typed in
    capitals and the GUI failing to start. *)
Example setup_on_python_3_6 :
  let st := (setup_main ascii_lower (host 3 6 [] (lit "y")) setup_start).2 in
  su_pip st = [] /\ su_launches st = 0 /\
  su_prompts st = [lit "Press Enter to exit..."].
Proof. by vm_compute. Qed.

Example setup_without_pyserial :
  let st := (setup_main ascii_lower (host 3 12 [lit "pyserial"] (lit "y"))
                        setup_start).2 in
  su_pip st = [lit "pyserial"] /\ su_launches st = 0 /\
  su_prompts st = [nl ++ lit "Press Enter to exit..."].
Proof. by vm_compute. Qed.

Example setup_launches_the_gui :
  let run := setup_main ascii_lower (host 3 12 [] (lit "YES")) setup_start in
  run.1 = Ok tt /\
  su_pip run.2 = [lit "pyserial"; lit "bleak"] /\ su_launches run.2 = 1 /\
  last (su_stdout run.2) = Some (lit "Error launching GUI: no display") /\
  su_prompts run.2 =
    [nl ++ lit "Would you like to launch the GUI now? (y/n): ";
     nl ++ lit "Press Enter to exit..."].
Proof. by vm_compute. Qed.

(** The connection test when the reads fail and the disconnection
    fails: the write is still made, and the last line printed says that
    the connection failed. *)
Example connection_test_with_failing_reads :
  let o := {| ts_connect := Ok tt; ts_is_connected := true;
              ts_read_name := Raise adapter_off; ts_read := Raise adapter_off;
              ts_write := Ok tt; ts_read_back := Raise adapter_off;
              ts_disconnect := Raise adapter_off |} in
  let w' := exec (test_esp32_connection latin1_encode o) w_ready in
  List.length (ble_calls w') = 6 /\
  last (ble_calls w') = Some (script_loop, BleDisconnect ESP32_ADDRESS) /\
  last (stdout w') = Some (connection_failed_line adapter_off).
Proof. by vm_compute. Qed.
